(** * Shallow embedding of the anti-cheat RPC gate
      (hbplugin-mouthwashgg-anti-cheat/src/plugin.ts) and of the room
      broadcast / host-view code (Hindenburg/src/worker/BaseRoom.ts). *)

From Stdlib Require Import ZArith List String Bool Lia.
Import ListNotations.
Open Scope Z_scope.

(* ================================================================== *)
(** ** Anti-cheat plugin *)
(* ================================================================== *)

Module AntiCheat.

(** [InfractionSeverity] *)
Inductive InfractionSeverity := Low | Medium | High | Critical.

Definition severity_eqb (a b : InfractionSeverity) : bool :=
  match a, b with
  | Low, Low | Medium, Medium | High, High | Critical, Critical => true
  | _, _ => false
  end.

(** [InfractionName] (the members used by the plugin) *)
Inductive InfractionName :=
| ForbiddenRpcInnernetObject | UnknownRpcInnernetObject
| ForbiddenRpcMeetingVote | DuplicateRpcMeetingVote | InvalidRpcMeetingVote
| InvalidRpcColor | InvalidRpcName | ForbiddenRpcCode | ForbiddenRpcVent
| InvalidRpcHat | InvalidRpcPet | InvalidRpcSkin | InvalidRpcCode.

(** [RpcMessageTag]; tags the plugin does not list are [OtherTag n]. *)
Inductive RpcMessageTag :=
| AddVote | CastVote | CheckColor | CheckName | ClearVote | Close | Exiled
| MurderPlayer | PlayAnimation | ReportDeadBody | SetInfected | SetTasks
| SetName | SetColor | StartMeeting | SyncSettings | VotingComplete
| BootFromVent | ClimbLadder | CloseDoorsOfType | CompleteTask | EnterVent
| ExitVent | RepairSystem | SendChat | SendChatNote | SendQuickChat | SetHat
| SetPet | SetSkin | SetScanner | SetStartCounter | SnapTo | UpdateSystem
| UsePlatform | OtherTag (n : Z).

(** An RPC message object.  The fields the plugin reads are kept; a
    message of any other class carries only its tag.  Reading a field the
    object does not have gives JavaScript's [undefined] (see the
    [field_*] accessors below, which return [None] then). *)
Inductive BaseRpcMessage :=
| CastVoteMessage (votingid suspectid : Z)
| CheckColorMessage (color : Z)
| CheckNameMessage (name : string)
| EnterVentMessage (ventid : Z)
| ExitVentMessage (ventid : Z)
| SetHatMessage (hat : Z)
| SetPetMessage (pet : Z)
| SetSkinMessage (skin : Z)
| SyncSettingsMessage (settings : Z)
| PlainRpcMessage (tag : RpcMessageTag).

Definition messageTag (m : BaseRpcMessage) : RpcMessageTag :=
  match m with
  | CastVoteMessage _ _ => CastVote
  | CheckColorMessage _ => CheckColor
  | CheckNameMessage _ => CheckName
  | EnterVentMessage _ => EnterVent
  | ExitVentMessage _ => ExitVent
  | SetHatMessage _ => SetHat
  | SetPetMessage _ => SetPet
  | SetSkinMessage _ => SetSkin
  | SyncSettingsMessage _ => SyncSettings
  | PlainRpcMessage t => t
  end.

(** Property reads after a TypeScript cast ([rpcMessage as X]): the
    cast does not change the object, so a missing field is [undefined]. *)
Definition field_votingid (m : BaseRpcMessage) : option Z :=
  match m with CastVoteMessage v _ => Some v | _ => None end.
Definition field_suspectid (m : BaseRpcMessage) : option Z :=
  match m with CastVoteMessage _ s => Some s | _ => None end.
Definition field_hat (m : BaseRpcMessage) : option Z :=
  match m with SetHatMessage h => Some h | _ => None end.
Definition field_pet (m : BaseRpcMessage) : option Z :=
  match m with SetPetMessage p => Some p | _ => None end.
Definition field_skin (m : BaseRpcMessage) : option Z :=
  match m with SetSkinMessage s => Some s | _ => None end.

(** [a === b] where either side may be [undefined]. *)
Definition opt_eqb (a b : option Z) : bool :=
  match a, b with
  | Some x, Some y => Z.eqb x y
  | None, None => true
  | _, _ => false
  end.

(** [x in E] for a numeric enum [E]: the reverse-mapped keys are the
    numeric members; the key ["undefined"] is never one. *)
Definition in_enum (isMember : Z -> bool) (x : option Z) : bool :=
  match x with Some z => isMember z | None => false end.

(** The component kinds the plugin distinguishes with [instanceof]. *)
Inductive ComponentKind :=
| KPlayerControl | KPlayerPhysics | KCustomNetworkTransform | KOtherComponent.

Record Networkable := mkNetworkable {
  netId : Z;
  ownerId : Z;
  kind : ComponentKind
}.

Record PlayerData := mkPlayer {
  p_clientId : Z;
  p_playerId : Z;
  (** [player.info?.isDead]: [None] when there is no info object *)
  p_isDead : option bool
}.

Record VoteState := mkVoteState { hasVoted : bool; votedForId : Z }.

Record MeetingHud := mkMeetingHud {
  mh_netId : Z;
  voteStates : list (Z * VoteState)
}.

Record ShipStatus := mkShipStatus { ss_netId : Z; isAirship : bool }.

(** The part of the room the plugin reads. *)
Record Room := mkRoom {
  serverAsHost : bool;
  hostId : Z;
  actingHostsEnabled : bool;
  actingHostIds : list Z;          (* a JS Set: insertion order *)
  players : list PlayerData;       (* keyed by client id *)
  netobjects : list Networkable;   (* keyed by net id *)
  meetingHud : option MeetingHud;
  voteBanSystem : option Z;        (* net id of the VoteBanSystem *)
  shipStatus : option ShipStatus;
  finishedActingHostTransactionRoutine : bool;
  settings : Z
}.

Record Cosmetic := mkCosmetic { among_us_id : Z; cosmetic_type : string }.

Record User := mkUser {
  user_id : Z;
  display_name : string;
  owned_cosmetics : list Cosmetic
}.

(** Collaborators and enum tables: the auth service
    ([getConnectionUser]), the role exception table
    ([getAnticheatExceptions] of the player's role), whether the metrics
    plugin is loaded, and membership in the [Color]/[Hat]/[Pet]/[Skin]
    enums. *)
Record Env := mkEnv {
  getConnectionUser : Z -> option User;
  roleException : Z -> InfractionName -> bool;
  metricsLoaded : bool;
  isColor : Z -> bool;
  isHat : Z -> bool;
  isPet : Z -> bool;
  isSkin : Z -> bool
}.

Record PlayerInfraction := mkInfraction {
  userId : Z;
  playerPing : Z;
  infractionName : InfractionName;
  severity : InfractionSeverity
}.

(** Plugin state: [unflushedPlayerInfractions], and the batches handed
    to the metrics sink so far (most recent first). *)
Record AcState := mkAcState {
  unflushedPlayerInfractions : list PlayerInfraction;
  flushedBatches : list (list PlayerInfraction)
}.

Definition getPlayer (room : Room) (clientId : Z) : option PlayerData :=
  find (fun p => Z.eqb (p_clientId p) clientId) (players room).

Definition getPlayerByPlayerId (room : Room) (pid : option Z)
  : option PlayerData :=
  match pid with
  | None => None
  | Some id => find (fun p => Z.eqb (p_playerId p) id) (players room)
  end.

Definition netobjects_get (room : Room) (nid : Z) : option Networkable :=
  find (fun c => Z.eqb (netId c) nid) (netobjects room).

Definition voteStates_get (mh : MeetingHud) (pid : option Z)
  : option VoteState :=
  match pid with
  | None => None
  | Some id =>
      option_map snd (find (fun kv => Z.eqb (fst kv) id) (voteStates mh))
  end.

(** [flushPlayerInfractions] *)
Definition flushPlayerInfractions (env : Env) (st : AcState) : AcState :=
  match unflushedPlayerInfractions st with
  | [] => st
  | batch =>
      if negb (metricsLoaded env) then st
      else mkAcState [] (batch :: flushedBatches st)
  end.

(** [createInfraction]; the infraction is pushed at the end of the
    buffer.  The sender is always a [Connection] here, with ping [ping].
    The size-triggered [flushPlayerInfractions] is not awaited by the
    source and empties the buffer only once its query is done; it is
    modelled as taking effect at once. *)
Definition createInfraction (env : Env) (room : Room) (st : AcState)
    (senderId ping : Z) (name : InfractionName) (sev : InfractionSeverity)
  : option PlayerInfraction * AcState :=
  match getPlayer room senderId with
  | None => (None, st)
  | Some _ =>
      if roleException env senderId name then (None, st) else
      match getConnectionUser env senderId with
      | None => (None, st)
      | Some u =>
          let inf := mkInfraction (user_id u) ping name sev in
          let st1 := mkAcState (unflushedPlayerInfractions st ++ [inf])
                               (flushedBatches st) in
          if negb (severity_eqb sev Low) then (Some inf, st1)
          else if Nat.ltb 100 (List.length (unflushedPlayerInfractions st1))
               then (Some inf, flushPlayerInfractions env st1)
               else (Some inf, st1)
      end
  end.

Definition field_color (m : BaseRpcMessage) : option Z :=
  match m with CheckColorMessage c => Some c | _ => None end.
Definition field_name (m : BaseRpcMessage) : option string :=
  match m with CheckNameMessage n => Some n | _ => None end.

(** [user.owned_cosmetics.findIndex(c => c.among_us_id === x && c.type === ty) !== -1] *)
Definition ownsCosmetic (u : User) (ty : string) (x : option Z) : bool :=
  existsb (fun c => opt_eqb (Some (among_us_id c)) x
                    && String.eqb (cosmetic_type c) ty)
          (owned_cosmetics u).

(** The sender of a packet ([context.sender]). *)
Record Connection := mkConnection { clientId : Z; roundTripPing : Z }.

(** What a [case] of the first [switch] of [onRpcMessageData] does:
    [Some None] is [return;], [Some (Some (n, s))] is
    [return this.createInfraction(sender, n, ..., s)], and [None] is
    [break] (control reaches the second [switch]). *)
Definition Verdict := option (InfractionName * InfractionSeverity).

Definition case_SetSkin (env : Env) (m : BaseRpcMessage) : option Verdict :=
  if opt_eqb (field_skin m) (Some 9999999) then Some None
  else if negb (in_enum (isSkin env) (field_skin m))
  then Some (Some (InvalidRpcSkin, Critical))
  else None (* falls through into [case SetScanner: break] *).

Definition case_SetPet (env : Env) (sender : Connection) (m : BaseRpcMessage)
  : option Verdict :=
  if opt_eqb (field_pet m) (Some 9999999) then Some None else
  match getConnectionUser env (clientId sender) with
  | None => Some None
  | Some u =>
      if negb (in_enum (isPet env) (field_pet m))
         && negb (ownsCosmetic u "PET" (field_pet m))
      then Some (Some (InvalidRpcPet, Critical))
      else case_SetSkin env m (* no [break]: falls through *)
  end.

Definition case_SetHat (env : Env) (sender : Connection) (m : BaseRpcMessage)
  : option Verdict :=
  if opt_eqb (field_hat m) (Some 9999999) then Some None else
  match getConnectionUser env (clientId sender) with
  | Some u =>
      if negb (in_enum (isHat env) (field_hat m))
         && negb (ownsCosmetic u "HAT" (field_hat m))
      then Some (Some (InvalidRpcHat, Critical))
      else case_SetPet env sender m (* no [break]: falls through *)
  | None => case_SetPet env sender m
  end.

(** [case CastVote] (also reached from [case AddVote], which has no body). *)
Definition case_CastVote (room : Room) (sender : Connection)
    (m : BaseRpcMessage) : option Verdict :=
  let voter := getPlayerByPlayerId room (field_votingid m) in
  let suspect := getPlayerByPlayerId room (field_suspectid m) in
  match voter with
  | None => Some (Some (ForbiddenRpcMeetingVote, High))
  | Some v =>
      if negb (Z.eqb (p_clientId v) (clientId sender))
      then Some (Some (ForbiddenRpcMeetingVote, Critical)) else
      match match meetingHud room with
            | Some mh => voteStates_get mh (field_votingid m)
            | None => None
            end with
      | None => Some None
      | Some vs =>
          if hasVoted vs then Some (Some (DuplicateRpcMeetingVote, High)) else
          match suspect with
          | Some s =>
              match p_isDead s with
              | Some true => Some (Some (InvalidRpcMeetingVote, High))
              | _ => None
              end
          | None =>
              if negb (opt_eqb (field_suspectid m) (Some 255))
              then Some (Some (InvalidRpcMeetingVote, High))
              else None
          end
      end
  end.

Definition isAirshipLoaded (room : Room) : bool :=
  match shipStatus room with Some s => isAirship s | None => false end.

(** The first [switch (rpcMessage.messageTag)] of [onRpcMessageData]. *)
Definition firstSwitch (env : Env) (room : Room) (sender : Connection)
    (m : BaseRpcMessage) : option Verdict :=
  match messageTag m with
  | AddVote | CastVote => case_CastVote room sender m
  | CheckColor =>
      if negb (in_enum (isColor env) (field_color m))
      then Some (Some (InvalidRpcColor, Critical)) else None
  | CheckName =>
      match getConnectionUser env (clientId sender) with
      | None => Some None
      | Some u =>
          match field_name m with
          | Some n => if String.eqb n (display_name u) then None
                      else Some (Some (InvalidRpcName, Critical))
          | None => Some (Some (InvalidRpcName, Critical))
          end
      end
  | ClearVote | Close | Exiled | MurderPlayer | PlayAnimation | ReportDeadBody
  | SetInfected | SetTasks | SetName | SetColor | StartMeeting | SyncSettings
  | VotingComplete | BootFromVent => Some (Some (ForbiddenRpcCode, Critical))
  | ClimbLadder | CloseDoorsOfType | CompleteTask => None
  | EnterVent | ExitVent => Some (Some (ForbiddenRpcVent, High))
  | RepairSystem | SendChat | SendChatNote | SendQuickChat => None
  | SetHat => case_SetHat env sender m
  | SetPet => case_SetPet env sender m
  | SetSkin => case_SetSkin env m
  | SetScanner => None
  | SetStartCounter =>
      if actingHostsEnabled room
         && negb (existsb (Z.eqb (clientId sender)) (actingHostIds room))
      then Some (Some (ForbiddenRpcCode, Critical)) else None
  | SnapTo =>
      if negb (isAirshipLoaded room)
      then Some (Some (ForbiddenRpcCode, Critical)) else None
  | UpdateSystem | UsePlatform => None
  | OtherTag _ => Some (Some (InvalidRpcCode, High))
  end.

(** The second [switch]: [true] where the source does [return;] because
    the RPC is carried by the right component. *)
Definition rightComponent (room : Room) (comp : Networkable)
    (m : BaseRpcMessage) : bool :=
  match messageTag m with
  | AddVote => match voteBanSystem room with
               | Some n => Z.eqb n (netId comp) | None => false end
  | CastVote | ClearVote | Close | VotingComplete =>
      match meetingHud room with
      | Some mh => Z.eqb (mh_netId mh) (netId comp) | None => false end
  | CheckColor | CheckName | CompleteTask | Exiled | MurderPlayer
  | PlayAnimation | ReportDeadBody | SendChat | SendChatNote | SendQuickChat
  | SetColor | SetHat | SetInfected | SetName | SetPet | SetScanner | SetSkin
  | SetStartCounter | SetTasks | StartMeeting | SyncSettings | UsePlatform =>
      match kind comp with KPlayerControl => true | _ => false end
  | ClimbLadder | EnterVent | ExitVent =>
      match kind comp with KPlayerPhysics => true | _ => false end
  | SnapTo =>
      match kind comp with KCustomNetworkTransform => true | _ => false end
  | RepairSystem | CloseDoorsOfType =>
      match shipStatus room with
      | Some s => Z.eqb (ss_netId s) (netId comp) | None => false end
  | _ => false
  end.

(** The infraction [onRpcMessageData] asks [createInfraction] for, if any. *)
Definition rpcVerdict (env : Env) (room : Room) (sender : Connection)
    (comp : Networkable) (m : BaseRpcMessage) : Verdict :=
  match firstSwitch env room sender m with
  | Some v => v
  | None =>
      if rightComponent room comp m then None
      else Some (ForbiddenRpcCode, Critical)
  end.

(** [onRpcMessageData]: every [return] of the source either returns
    [undefined] or returns the result of [createInfraction]. *)
Definition onRpcMessageData (env : Env) (room : Room) (st : AcState)
    (comp : Networkable) (m : BaseRpcMessage) (sender : Connection)
  : option PlayerInfraction * AcState :=
  match rpcVerdict env room sender comp m with
  | None => (None, st)
  | Some (n, s) =>
      createInfraction env room st (clientId sender) (roundTripPing sender) n s
  end.

(** [room.host] *)
Definition host (room : Room) : option PlayerData :=
  if serverAsHost room then
    match actingHostIds room with
    | h :: _ => getPlayer room h
    | [] => None
    end
  else getPlayer room (hostId room).

Record RpcMessage := mkRpcMessage { netid : Z; data : BaseRpcMessage }.

(** Result of [onRpcMessage]: whether [component.HandleRpc] was invoked,
    and the plugin and room states afterwards.  [roomAfter] is the room
    as the handler itself leaves it: what [HandleRpc] then does to the
    room is not modelled. *)
Record RpcOutcome := mkOutcome {
  handled : bool;
  acState : AcState;
  roomAfter : Room
}.

Definition isInitialSettings (room : Room) (sender : option Connection)
    (m : BaseRpcMessage) : bool :=
  match host room, sender, m with
  | Some h, Some c, SyncSettingsMessage _ =>
      Z.eqb (p_clientId h) (clientId c)
      && negb (finishedActingHostTransactionRoutine room)
  | _, _, _ => false
  end.

Definition finishHandshake (room : Room) (s : Z) : Room :=
  mkRoom (serverAsHost room) (hostId room) (actingHostsEnabled room)
    (actingHostIds room) (players room) (netobjects room) (meetingHud room)
    (voteBanSystem room) (shipStatus room) true s.

(** [onRpcMessage] (the overriding [RpcMessage] handler). *)
Definition onRpcMessage (env : Env) (room : Room) (st : AcState)
    (message : RpcMessage) (sender : option Connection) : RpcOutcome :=
  if isInitialSettings room sender (data message) then
    match data message with
    | SyncSettingsMessage s => mkOutcome false st (finishHandshake room s)
    | _ => mkOutcome false st room
    end
  else
  match netobjects_get room (netid message) with
  | Some comp =>
      match sender with
      | Some c =>
          if Z.eqb (ownerId comp) (-1)
             || negb (Z.eqb (ownerId comp) (clientId c))
          then mkOutcome false
                 (snd (createInfraction env room st (clientId c)
                         (roundTripPing c) ForbiddenRpcInnernetObject Critical))
                 room
          else
            let '(inf, st1) := onRpcMessageData env room st comp (data message) c in
            match inf with
            | Some i => if severity_eqb (severity i) Critical
                        then mkOutcome false st1 room
                        else mkOutcome true st1 room
            | None => mkOutcome true st1 room
            end
      | None => mkOutcome true st room
      end
  | None =>
      match sender with
      | Some c =>
          mkOutcome false
            (snd (createInfraction env room st (clientId c) (roundTripPing c)
                    UnknownRpcInnernetObject Medium))
            room
      | None => mkOutcome false st room
      end
  end.

(** [onRoomGameEnd] and [onRoomDestroy] *)
Definition onRoomGameEnd (env : Env) (st : AcState) : AcState :=
  flushPlayerInfractions env st.
Definition onRoomDestroy (env : Env) (st : AcState) : AcState :=
  flushPlayerInfractions env st.

End AntiCheat.

(* ================================================================== *)
(** ** BaseRoom: broadcast, host view, join and leave *)
(* ================================================================== *)

Module BaseRoom.

(** [SpecialClientId] *)
Definition Nil : Z := 2 ^ 31 - 1.
Definition Server : Z := 2 ^ 31 - 2.
Definition Temp : Z := 2 ^ 31 - 3.

(** [DisconnectReason.Error] and [DisconnectReason.Destroy] *)
Definition ReasonError : Z := 17.
Definition ReasonDestroy : Z := 16.

Inductive GameState := NotStarted | Started | Ended | Destroyed.

Definition gameState_eqb (a b : GameState) : bool :=
  match a, b with
  | NotStarted, NotStarted | Started, Started | Ended, Ended
  | Destroyed, Destroyed => true
  | _, _ => false
  end.

(** Game data messages ([BaseGameDataMessage]); only [SceneChange] is
    built by the code modelled here, the others are opaque. *)
Inductive GameDataMsg :=
| SceneChangeMessage (clientId : Z) (scene : string)
| OpaqueGameData (n : Z).

(** Root messages ([BaseRootMessage]) built by the room. *)
Inductive RootMessage :=
| GameDataMessage (code : Z) (children : list GameDataMsg)
| GameDataToMessage (code target : Z) (children : list GameDataMsg)
| JoinGameMessage (code clientId hostId : Z)
| JoinedGameMessage (code clientId hostId : Z) (others : list Z)
| RemovePlayerMessage (code clientId reason hostId : Z)
| AlterGameMessage (code : Z) (isPublic : bool)
| WaitForHostMessage (code clientId : Z)
| RemoveGameMessage (reason : Z)
| OpaqueRoot (n : Z).

Inductive Packet :=
| ReliablePacket (nonce : Z) (messages : list RootMessage)
| UnreliablePacket (messages : list RootMessage).

Definition packetMessages (p : Packet) : list RootMessage :=
  match p with ReliablePacket _ ms | UnreliablePacket ms => ms end.

(** Events the room emits, in emission order. *)
Inductive RoomEvent :=
| EvClientBroadcast (recipient : Z)
| EvRoomSelectHost (isActingHost isJoining : bool) (candidate : Z)
| EvPlayerSetHost (player : Z)
| EvPlayerJoin (player : Z)
| EvRoomBeforeDestroy
| EvRoomDestroy.

Inductive SpawnType := SpawnLobbyBehaviour | SpawnGameData | SpawnNecessaryObjects.

(** Listener decisions (plugins observing the room's events).
    [onClientBroadcast c gamedata payloads] is [(canceled, alteredGameData)];
    [onSelectHost] gives [None] when the event is canceled and
    [Some alteredSelected] otherwise. *)
Record Listeners := mkListeners {
  onClientBroadcast : Z -> list GameDataMsg -> list RootMessage
                      -> bool * list GameDataMsg;
  onSelectHost : bool -> bool -> Z -> option Z;
  beforeDestroyCanceled : bool
}.

(** The room state the modelled methods read and write.  Connections
    and players are keyed by client id, in [Map] insertion order;
    [nonces] is each connection's last nonce ([getNextNonce]). *)
Record RoomState := mkRoomState {
  code : Z;
  serverAsHost : bool;
  hostId : Z;
  actingHostsEnabled : bool;
  actingHostIds : list Z;
  connections : list Z;
  players : list Z;
  waitingForHost : list Z;
  actingHostWaitingFor : list Z;
  finishedActingHostTransactionRoutine : bool;
  state : GameState;
  isPublic : bool;
  playerJoinedFlag : bool;
  hasLobbyBehaviour : bool;
  hasGameData : bool;
  nonces : list (Z * Z);
  spawned : list SpawnType;
  sent : list (Z * Packet);
  emitted : list RoomEvent
}.

Definition mem (x : Z) (l : list Z) : bool := existsb (Z.eqb x) l.
Definition remove_id (x : Z) (l : list Z) : list Z :=
  filter (fun y => negb (Z.eqb x y)) l.
(** [Set.add] / [Map.set] on a new key: appended, kept in place otherwise. *)
Definition add_id (x : Z) (l : list Z) : list Z :=
  if mem x l then l else l ++ [x].

(** Record updates, one field each. *)
Definition set_nonces st v :=
  mkRoomState (code st) (serverAsHost st) (hostId st) (actingHostsEnabled st)
    (actingHostIds st) (connections st) (players st) (waitingForHost st)
    (actingHostWaitingFor st) (finishedActingHostTransactionRoutine st)
    (state st) (isPublic st) (playerJoinedFlag st) (hasLobbyBehaviour st)
    (hasGameData st) v (spawned st) (sent st) (emitted st).
Definition set_sent st v :=
  mkRoomState (code st) (serverAsHost st) (hostId st) (actingHostsEnabled st)
    (actingHostIds st) (connections st) (players st) (waitingForHost st)
    (actingHostWaitingFor st) (finishedActingHostTransactionRoutine st)
    (state st) (isPublic st) (playerJoinedFlag st) (hasLobbyBehaviour st)
    (hasGameData st) (nonces st) (spawned st) v (emitted st).
Definition set_emitted st v :=
  mkRoomState (code st) (serverAsHost st) (hostId st) (actingHostsEnabled st)
    (actingHostIds st) (connections st) (players st) (waitingForHost st)
    (actingHostWaitingFor st) (finishedActingHostTransactionRoutine st)
    (state st) (isPublic st) (playerJoinedFlag st) (hasLobbyBehaviour st)
    (hasGameData st) (nonces st) (spawned st) (sent st) v.
Definition set_hostId st v :=
  mkRoomState (code st) (serverAsHost st) v (actingHostsEnabled st)
    (actingHostIds st) (connections st) (players st) (waitingForHost st)
    (actingHostWaitingFor st) (finishedActingHostTransactionRoutine st)
    (state st) (isPublic st) (playerJoinedFlag st) (hasLobbyBehaviour st)
    (hasGameData st) (nonces st) (spawned st) (sent st) (emitted st).
Definition set_actingHostIds st v :=
  mkRoomState (code st) (serverAsHost st) (hostId st) (actingHostsEnabled st)
    v (connections st) (players st) (waitingForHost st)
    (actingHostWaitingFor st) (finishedActingHostTransactionRoutine st)
    (state st) (isPublic st) (playerJoinedFlag st) (hasLobbyBehaviour st)
    (hasGameData st) (nonces st) (spawned st) (sent st) (emitted st).
Definition set_connections st v :=
  mkRoomState (code st) (serverAsHost st) (hostId st) (actingHostsEnabled st)
    (actingHostIds st) v (players st) (waitingForHost st)
    (actingHostWaitingFor st) (finishedActingHostTransactionRoutine st)
    (state st) (isPublic st) (playerJoinedFlag st) (hasLobbyBehaviour st)
    (hasGameData st) (nonces st) (spawned st) (sent st) (emitted st).
Definition set_players st v :=
  mkRoomState (code st) (serverAsHost st) (hostId st) (actingHostsEnabled st)
    (actingHostIds st) (connections st) v (waitingForHost st)
    (actingHostWaitingFor st) (finishedActingHostTransactionRoutine st)
    (state st) (isPublic st) (playerJoinedFlag st) (hasLobbyBehaviour st)
    (hasGameData st) (nonces st) (spawned st) (sent st) (emitted st).
Definition set_waitingForHost st v :=
  mkRoomState (code st) (serverAsHost st) (hostId st) (actingHostsEnabled st)
    (actingHostIds st) (connections st) (players st) v
    (actingHostWaitingFor st) (finishedActingHostTransactionRoutine st)
    (state st) (isPublic st) (playerJoinedFlag st) (hasLobbyBehaviour st)
    (hasGameData st) (nonces st) (spawned st) (sent st) (emitted st).
Definition set_actingHostWaitingFor st v :=
  mkRoomState (code st) (serverAsHost st) (hostId st) (actingHostsEnabled st)
    (actingHostIds st) (connections st) (players st) (waitingForHost st)
    v (finishedActingHostTransactionRoutine st)
    (state st) (isPublic st) (playerJoinedFlag st) (hasLobbyBehaviour st)
    (hasGameData st) (nonces st) (spawned st) (sent st) (emitted st).
Definition set_state st v :=
  mkRoomState (code st) (serverAsHost st) (hostId st) (actingHostsEnabled st)
    (actingHostIds st) (connections st) (players st) (waitingForHost st)
    (actingHostWaitingFor st) (finishedActingHostTransactionRoutine st)
    v (isPublic st) (playerJoinedFlag st) (hasLobbyBehaviour st)
    (hasGameData st) (nonces st) (spawned st) (sent st) (emitted st).
Definition set_playerJoinedFlag st v :=
  mkRoomState (code st) (serverAsHost st) (hostId st) (actingHostsEnabled st)
    (actingHostIds st) (connections st) (players st) (waitingForHost st)
    (actingHostWaitingFor st) (finishedActingHostTransactionRoutine st)
    (state st) (isPublic st) v (hasLobbyBehaviour st)
    (hasGameData st) (nonces st) (spawned st) (sent st) (emitted st).
Definition spawnPrefab st (t : SpawnType) :=
  let hl := match t with SpawnLobbyBehaviour => true | _ => hasLobbyBehaviour st end in
  let hg := match t with SpawnGameData => true | _ => hasGameData st end in
  mkRoomState (code st) (serverAsHost st) (hostId st) (actingHostsEnabled st)
    (actingHostIds st) (connections st) (players st) (waitingForHost st)
    (actingHostWaitingFor st) (finishedActingHostTransactionRoutine st)
    (state st) (isPublic st) (playerJoinedFlag st) hl hg (nonces st)
    (spawned st ++ [t]) (sent st) (emitted st).

Definition emit (st : RoomState) (ev : RoomEvent) : RoomState :=
  set_emitted st (emitted st ++ [ev]).

(** [connection.getNextNonce()] *)
Definition getNextNonce (st : RoomState) (c : Z) : Z * RoomState :=
  let cur := match find (fun kv => Z.eqb (fst kv) c) (nonces st) with
             | Some (_, n) => n | None => 0 end in
  let n := cur + 1 in
  (n, set_nonces st ((c, n) :: filter (fun kv => negb (Z.eqb (fst kv) c))
                                        (nonces st))).

(** [connection.sendPacket(reliable ? new ReliablePacket(connection.getNextNonce(), ms) : new UnreliablePacket(ms))] *)
Definition sendPacket (st : RoomState) (c : Z) (reliable : bool)
    (ms : list RootMessage) : RoomState :=
  if reliable then
    let '(n, st1) := getNextNonce st c in
    set_sent st1 (sent st1 ++ [(c, ReliablePacket n ms)])
  else set_sent st (sent st ++ [(c, UnreliablePacket ms)]).

(** One recipient of [broadcastMessages] (the body shared by both loops,
    [toTarget] selecting [GameDataTo] over [GameData]). *)
Definition broadcastTo (L : Listeners) (st : RoomState) (c : Z)
    (gamedata : list GameDataMsg) (payloads : list RootMessage)
    (toTarget reliable : bool) : RoomState :=
  let st1 := emit st (EvClientBroadcast c) in
  let '(canceled, alteredGameData) := onClientBroadcast L c gamedata payloads in
  if canceled then st1 else
  let messages :=
    match alteredGameData with
    | [] => []
    | _ => [if toTarget then GameDataToMessage (code st1) c alteredGameData
            else GameDataMessage (code st1) alteredGameData]
    end ++ payloads in
  match messages with
  | [] => st1
  | _ => sendPacket st1 c reliable messages
  end.

(** [broadcastMessages(gamedata, payloads, include, exclude, reliable)] *)
Definition broadcastMessages (L : Listeners) (st : RoomState)
    (gamedata : list GameDataMsg) (payloads : list RootMessage)
    (include exclude : option (list Z)) (reliable : bool) : RoomState :=
  match gamedata, payloads with
  | [], [] => st
  | _, _ =>
    let clientsToBroadcast :=
      match include with Some l => l | None => connections st end in
    let clientsToExclude :=
      match exclude with Some l => l | None => [] end in
    match clientsToBroadcast with
    | [singleClient] =>
        if mem singleClient clientsToExclude then st
        else broadcastTo L st singleClient gamedata payloads true reliable
    | _ =>
        fold_left
          (fun st' connection =>
             if mem connection clientsToExclude then st'
             else broadcastTo L st' connection gamedata payloads
                    (match include with Some _ => true | None => false end)
                    reliable)
          clientsToBroadcast st
    end
  end.

(** [getConnection(player)]: [undefined] for client id 0 ([!clientId]). *)
Definition getConnection (st : RoomState) (p : Z) : option Z :=
  if Z.eqb p 0 then None
  else if mem p (connections st) then Some p else None.

(** [broadcast(messages, reliable, recipient, payloads)].  The source
    does not await [broadcastMessages], whose sends each follow an
    awaited [ClientBroadcastEvent]; here they are made at once, so the
    order of [sent] relative to the caller's later direct sends is only
    that of the calls. *)
Definition broadcast (L : Listeners) (st : RoomState)
    (messages : list GameDataMsg) (reliable : bool) (recipient : option Z)
    (payloads : list RootMessage) : RoomState :=
  let includedConnection :=
    match recipient with Some p => getConnection st p | None => None end in
  broadcastMessages L st messages payloads
    (match includedConnection with Some c => Some [c] | None => None end)
    None reliable.

(** [recipient.getPlayer()] *)
Definition connGetPlayer (st : RoomState) (c : Z) : option Z :=
  if mem c (players st) then Some c else None.

(** [updateHostForClient(hostId, recipient)] *)
Definition updateHostForClient (L : Listeners) (st : RoomState)
    (hid : Z) (recipient : option Z) : RoomState :=
  broadcast L st [] true
    (match recipient with Some c => connGetPlayer st c | None => None end)
    [JoinGameMessage (code st) Temp hid;
     RemovePlayerMessage (code st) Temp ReasonError hid].




(** [hostIsMe] *)
Definition hostIsMe (st : RoomState) : bool := Z.eqb (hostId st) Server.

(** [room.host] is defined ([this.players.get(...)]) *)
Definition hasHost (st : RoomState) : bool :=
  if serverAsHost st then
    match actingHostIds st with h :: _ => mem h (players st) | [] => false end
  else mem (hostId st) (players st).

(** [addActingHost(player)]; [isConnection] tells whether the argument
    is a [Connection] (otherwise the connection is looked up). *)
Definition addActingHost (L : Listeners) (st : RoomState) (p : Z)
    (isConnection : bool) : RoomState :=
  let st1 := set_actingHostIds st (add_id p (actingHostIds st)) in
  let hasConn := isConnection || mem p (connections st1) in
  match actingHostWaitingFor st1 with
  | [] => if hasConn then updateHostForClient L st1 p (Some p) else st1
  | _ => st1
  end.

(** The host a connection is told about by [_joinOtherClients]. *)
Definition joinedHostFor (st : RoomState) (c : Z) : Z :=
  if actingHostsEnabled st then
    if mem c (actingHostIds st) then c else hostId st
  else hostId st.

(** [_joinOtherClients] *)
Definition joinOtherClients (st : RoomState) : RoomState :=
  let st1 :=
    fold_left
      (fun st' c =>
         if mem c (waitingForHost st') then
           let st'' := set_waitingForHost st' (remove_id c (waitingForHost st')) in
           sendPacket st'' c true
             [JoinedGameMessage (code st'') c (joinedHostFor st'' c)
                (remove_id c (connections st''))]
         else st')
      (connections st) st in
  set_waitingForHost st1 [].

(** [destroy(reason)] *)
Definition destroy (L : Listeners) (st : RoomState) (reason : Z) : RoomState :=
  let st1 := emit st EvRoomBeforeDestroy in
  if beforeDestroyCanceled L then st1 else
  let st2 := broadcast L st1 [] true None [RemoveGameMessage reason] in
  emit (set_state st2 Destroyed) EvRoomDestroy.

(** [handleJoin(clientId)] *)
Definition handleJoin (st : RoomState) (c : Z) : RoomState :=
  if mem c (players st) then st else
  let st1 := set_players st (players st ++ [c]) in
  if hostIsMe st1 then spawnPrefab st1 SpawnNecessaryObjects else st1.

(** [handleLeave(clientId)] of the underlying [Hostable]: the player is
    removed from the player map and returned, if there was one. *)
Definition handleLeave (st : RoomState) (c : Z) : option Z * RoomState :=
  if mem c (players st) then (Some c, set_players st (remove_id c (players st)))
  else (None, st).

(** [Array.prototype.splice(indexOf(x), 1)] when [x] is present. *)
Fixpoint remove_first (x : Z) (l : list Z) : list Z :=
  match l with
  | [] => []
  | y :: r => if Z.eqb x y then r else y :: remove_first x r
  end.

(** [handleRemoteJoin(joiningClient)] *)
Definition handleRemoteJoin (L : Listeners) (st : RoomState) (c : Z)
  : RoomState :=
  if mem c (connections st) then st else
  let st1 := handleJoin st c in
  let st2 :=
    if serverAsHost st1 then
      match actingHostIds st1 with
      | [] =>
          let st' := emit st1 (EvRoomSelectHost true true c) in
          match onSelectHost L true true c with
          | Some _ => addActingHost L st' c false
          | None => st'
          end
      | _ => st1
      end
    else if negb (hasHost st1) then
      let st' := emit st1 (EvRoomSelectHost false true c) in
      match onSelectHost L false true c with
      | Some sel => emit (set_hostId st' sel) (EvPlayerSetHost c)
      | None => st'
      end
    else st1 in
  if gameState_eqb (state st2) Ended && negb (serverAsHost st2) then
    if Z.eqb c (hostId st2) then
      let st3 := set_connections (set_state st2 NotStarted)
                   (add_id c (connections st2)) in
      let st4 := sendPacket st3 c true
                   [JoinedGameMessage (code st3) c (hostId st3)
                      (remove_id c (connections st3))] in
      let st5 := broadcast L st4 [] true (Some c)
                   [JoinGameMessage (code st4) c (hostId st4)] in
      joinOtherClients st5
    else
      let st3 := set_connections
                   (set_waitingForHost st2 (add_id c (waitingForHost st2)))
                   (add_id c (connections st2)) in
      let st4 := broadcast L st3 [] true (Some c)
                   [JoinGameMessage (code st3) c (hostId st3)] in
      sendPacket st4 c true [WaitForHostMessage (code st4) c]
  else
  let st3 := set_actingHostWaitingFor st2 (c :: actingHostWaitingFor st2) in
  let st4 := sendPacket st3 c true
               [JoinedGameMessage (code st3) c (hostId st3) (connections st3);
                AlterGameMessage (code st3) (isPublic st3)] in
  let st5 :=
    fold_left
      (fun st' other =>
         if mem other (players st') then
           sendPacket st' other true [JoinGameMessage (code st') c (hostId st')]
         else st')
      (connections st4) st4 in
  let st6 := set_playerJoinedFlag
               (set_connections st5 (add_id c (connections st5))) true in
  let st7 := emit st6 (EvPlayerJoin c) in
  let st8 := if gameState_eqb (state st7) Ended
             then set_state st7 NotStarted else st7 in
  if hostIsMe st8 then
    let st9 := if negb (hasLobbyBehaviour st8)
                  && gameState_eqb (state st8) NotStarted
               then spawnPrefab st8 SpawnLobbyBehaviour else st8 in
    if negb (hasGameData st9) then spawnPrefab st9 SpawnGameData else st9
  else st8.

(** The host field of the [RemovePlayer] sent to [c] by [handleRemoteLeave]. *)
Definition removePlayerHostFor (st : RoomState) (c : Z) : Z :=
  if serverAsHost st then Server
  else if actingHostsEnabled st then
    if mem c (actingHostIds st) then c else hostId st
  else hostId st.

(** The final loop of [handleRemoteLeave]: one [RemovePlayer] per
    remaining connection. *)
Definition broadcastRemovePlayer (st : RoomState) (leaving reason : Z)
  : RoomState :=
  fold_left
    (fun st' c =>
       sendPacket st' c true
         [RemovePlayerMessage (code st') leaving reason
            (removePlayerHostFor st' c)])
    (connections st) st.

(** [handleRemoteLeave(leavingConnection, reason)] *)
Definition handleRemoteLeave (L : Listeners) (st : RoomState)
    (leaving reason : Z) : RoomState :=
  let st1 := set_connections
               (set_waitingForHost st (remove_id leaving (waitingForHost st)))
               (remove_id leaving (connections st)) in
  let '(playerLeft, st2) := handleLeave st1 leaving in
  match connections st2 with
  | [] => destroy L st2 ReasonDestroy
  | newHostConn :: _ =>
  let st3 := set_actingHostIds st2 (remove_id leaving (actingHostIds st2)) in
  let st4 :=
    match playerLeft with
    | Some p =>
        if mem p (actingHostWaitingFor st3) then
          let st' := set_actingHostWaitingFor st3
                       (remove_first p (actingHostWaitingFor st3)) in
          match actingHostWaitingFor st' with
          | [] =>
              if actingHostsEnabled st' then
                fold_left
                  (fun s ah =>
                     if mem ah (connections s)
                     then updateHostForClient L s ah (Some ah) else s)
                  (actingHostIds st') st'
              else st'
          | _ => st'
          end
        else st3
    | None => st3
    end in
  let st5 :=
    if serverAsHost st4 then
      match actingHostIds st4 with
      | [] =>
          if actingHostsEnabled st4 then
            let st' := emit st4 (EvRoomSelectHost true false newHostConn) in
            match onSelectHost L true false newHostConn with
            | Some sel => addActingHost L st' sel true
            | None => st'
            end
          else st4
      | _ => st4
      end
    else if Z.eqb (hostId st4) leaving then
      let st' := emit st4 (EvRoomSelectHost false false newHostConn) in
      match onSelectHost L false false newHostConn with
      | Some sel =>
          let s1 := set_hostId st' sel in
          let s2 := if mem sel (players s1) then emit s1 (EvPlayerSetHost sel)
                    else s1 in
          if gameState_eqb (state s2) Ended && mem sel (waitingForHost s2)
          then joinOtherClients (set_state s2 NotStarted)
          else s2
      | None => st'
      end
    else st4 in
  broadcastRemovePlayer st5 leaving reason
  end.

(** The part of the room state that sending packets and emitting events
    leave alone. *)
Definition roomConfig (st : RoomState) :=
  (code st, serverAsHost st, hostId st, actingHostsEnabled st,
   actingHostIds st, connections st, players st,
   finishedActingHostTransactionRoutine st).

(** The messages of a packet are a single [RemovePlayer] for client
    [leaving] (the packets of [handleRemoteLeave]'s final loop). *)
Definition loneRemovePlayerOf (leaving : Z) (ms : list RootMessage) : bool :=
  match ms with
  | [m] => match m with
           | RemovePlayerMessage _ l _ _ => Z.eqb l leaving
           | _ => false
           end
  | _ => false
  end.

(** From [s] to [t] packets were only appended, and none of them is a
    lone [RemovePlayer] for [leaving]. *)
Definition sentNoRemovePlayerOf (leaving : Z) (s t : RoomState) : Prop :=
  exists pre, sent t = sent s ++ pre /\
    filter (fun cp => loneRemovePlayerOf leaving (packetMessages (snd cp))) pre
    = [].

End BaseRoom.

(* ================================================================== *)
(** ** Concrete rooms used by the examples and counterexamples *)
(* ================================================================== *)

Module Samples.
Import AntiCheat.

(** Every client is logged in as user [100 + id], owns no cosmetic, no
    role exception applies, metrics are loaded; the enums have the
    members [0 .. 17] ([Color]), [0 .. 9] ([Hat], [Pet], [Skin]). *)
Definition env1 : Env :=
  mkEnv (fun c => Some (mkUser (100 + c) "player" []))
        (fun _ _ => false) true
        (fun z => (0 <=? z) && (z <? 18))
        (fun z => (0 <=? z) && (z <? 10))
        (fun z => (0 <=? z) && (z <? 10))
        (fun z => (0 <=? z) && (z <? 10)).

Definition alice : PlayerData := mkPlayer 1 0 (Some false).
Definition bob : PlayerData := mkPlayer 2 1 (Some false).
Definition senderAlice : Connection := mkConnection 1 50.

(** Alice's [PlayerControl] (net id 10), a component with owner [-1]
    (net id 11), and a meeting hud (net id 20) in which Alice (player
    id 0) has already voted. *)
Definition aliceControl : Networkable := mkNetworkable 10 1 KPlayerControl.
Definition ownerless : Networkable := mkNetworkable 11 (-1) KPlayerControl.
Definition meetingComp : Networkable := mkNetworkable 20 1 KOtherComponent.

Definition room1 : Room :=
  mkRoom false 1 true [] [alice; bob] [aliceControl; ownerless; meetingComp]
    (Some (mkMeetingHud 20 [(0, mkVoteState true 1)]))
    None None true 0.

Definition emptyAc : AcState := mkAcState [] [].

Definition someInfraction : PlayerInfraction :=
  mkInfraction 101 50 UnknownRpcInnernetObject Medium.

(** A buffer already holding 100 infractions. *)
Definition ac100 : AcState := mkAcState (repeat someInfraction 100) [].

End Samples.

Module RoomSamples.
Import BaseRoom.

(** Listeners that never cancel nor alter anything. *)
Definition passive : Listeners :=
  mkListeners (fun _ gd _ => (false, gd)) (fun _ _ c => Some c) false.

(** A room with the given connections (all with players). *)
Definition roomWith (saah : bool) (host : Z) (ahs conns : list Z) : RoomState :=
  mkRoomState 42 saah host true ahs conns conns [] [] false NotStarted
    false true true true [] [] [] [].


(** Classic room hosted by 1, where 2 is still an acting host. *)
Definition classicRoom : RoomState := roomWith false 1 [2] [1; 2; 3].

End RoomSamples.

(* ================================================================== *)
(** ** Anti-cheat: auxiliary definitions for further properties *)
(* ================================================================== *)

Module AntiCheatMore.
Import AntiCheat.

(** An optional value as a list of at most one element. *)
Definition option_list {A} (o : option A) : list A :=
  match o with Some x => [x] | None => [] end.

(** Same room and enums as [Samples.env1], but nobody is logged in. *)
Definition envNoLogin : Env :=
  mkEnv (fun _ => None) (fun _ _ => false) true
        (isColor Samples.env1) (isHat Samples.env1)
        (isPet Samples.env1) (isSkin Samples.env1).


End AntiCheatMore.

(* ================================================================== *)
(** ** Room: further methods of [BaseRoom] *)
(* ================================================================== *)

Module BaseRoomMore.
Import BaseRoom.

Definition set_serverAsHost st v :=
  mkRoomState (code st) v (hostId st) (actingHostsEnabled st)
    (actingHostIds st) (connections st) (players st) (waitingForHost st)
    (actingHostWaitingFor st) (finishedActingHostTransactionRoutine st)
    (state st) (isPublic st) (playerJoinedFlag st) (hasLobbyBehaviour st)
    (hasGameData st) (nonces st) (spawned st) (sent st) (emitted st).
Definition set_actingHostsEnabled st v :=
  mkRoomState (code st) (serverAsHost st) (hostId st) v
    (actingHostIds st) (connections st) (players st) (waitingForHost st)
    (actingHostWaitingFor st) (finishedActingHostTransactionRoutine st)
    (state st) (isPublic st) (playerJoinedFlag st) (hasLobbyBehaviour st)
    (hasGameData st) (nonces st) (spawned st) (sent st) (emitted st).

(** A method that may [throw new Error(message)]. *)
Inductive Result := Ok (st : RoomState) | Throw (message : string).

(** The [for (const [ , connection ] of this.connections)] loop ending
    [setHost] and [disableSaaH]: each connection is told its own id if
    it is an enabled acting host, the room's host otherwise. *)
Definition tellHosts (L : Listeners) (st : RoomState) : RoomState :=
  fold_left
    (fun s c =>
       if actingHostsEnabled s && mem c (actingHostIds s)
       then updateHostForClient L s c (Some c)
       else updateHostForClient L s (hostId s) (Some c))
    (connections st) st.

(** [setHost(playerResolvable)], the player given by its client id
    ([resolvePlayerClientID] of a client id is that id). *)
Definition setHost (L : Listeners) (st : RoomState) (p : Z) : Result :=
  if serverAsHost st
  then Throw "Cannot set setHost while in SaaH mode, use addActingHost and removeActingHost"
  else if Z.eqb p 0 then Ok st
  else if negb (mem p (connections st))
  then Throw "Cannot set host without a connection"
  else
    let st1 := set_hostId st p in
    let st2 := if mem p (players st1) then emit st1 (EvPlayerSetHost p)
               else st1 in
    let st3 := if gameState_eqb (state st2) Ended && mem p (waitingForHost st2)
               then joinOtherClients (set_state st2 NotStarted) else st2 in
    Ok (tellHosts L st3).

(** [enableSaaH(addActingHost)] *)
Definition enableSaaH (L : Listeners) (st : RoomState) (addAH : bool)
  : RoomState :=
  let st1 := set_serverAsHost st true in
  let st2 := if addAH && negb (Z.eqb (hostId st1) Server)
             then set_actingHostIds st1 (add_id (hostId st1) (actingHostIds st1))
             else st1 in
  let st3 := set_hostId st2 Server in
  fold_left
    (fun s c =>
       if match actingHostWaitingFor s with [] => true | _ => false end
          && actingHostsEnabled s && mem c (actingHostIds s)
       then updateHostForClient L s c (Some c)
       else updateHostForClient L s Server (Some c))
    (connections st3) st3.

(** [this.connections.get(id)] *)
Definition connections_get (st : RoomState) (id : Z) : option Z :=
  if mem id (connections st) then Some id else None.

(** [disableSaaH()]; the [RoomSelectHostEvent] is decided by
    [onSelectHost L false false]. *)
Definition disableSaaH (L : Listeners) (st : RoomState) : RoomState :=
  let connection :=
    match actingHostIds st with
    | h :: _ => connections_get st h
    | [] => hd_error (connections st)
    end in
  let st1 := set_serverAsHost st false in
  match connection with
  | None => st1
  | Some conn =>
      let st2 := emit st1 (EvRoomSelectHost false false conn) in
      let st3 :=
        match onSelectHost L false false conn with
        | Some sel =>
            let s1 := set_hostId st2 sel in
            let s2 := set_actingHostIds s1 (remove_id sel (actingHostIds s1)) in
            let s3 := if mem sel (players s2) then emit s2 (EvPlayerSetHost sel)
                      else s2 in
            if gameState_eqb (state s3) Ended && mem sel (waitingForHost s3)
            then joinOtherClients (set_state s3 NotStarted) else s3
        | None => st2
        end in
      tellHosts L st3
  end.

(** [removeActingHost(player)]; [isConnection] as for [addActingHost]. *)
Definition removeActingHost (L : Listeners) (st : RoomState) (p : Z)
    (isConnection : bool) : RoomState :=
  let st1 := set_actingHostIds st (remove_id p (actingHostIds st)) in
  if isConnection || mem p (connections st1)
  then updateHostForClient L st1 Server (Some p)
  else st1.

(** [disableActingHosts()] *)
Definition disableActingHosts (L : Listeners) (st : RoomState) : Result :=
  if negb (actingHostsEnabled st)
  then Throw "Acting hosts are already disabled"
  else
    let st1 :=
      fold_left
        (fun s ah =>
           if mem ah (connections s) then
             if serverAsHost s then updateHostForClient L s Server (Some ah)
             else updateHostForClient L s (hostId s) (Some ah)
           else s)
        (actingHostIds st) st in
    Ok (set_actingHostsEnabled st1 false).

(** [enableActingHosts()] *)
Definition enableActingHosts (L : Listeners) (st : RoomState) : Result :=
  if actingHostsEnabled st
  then Throw "Acting hosts are already enabled"
  else
    let st1 :=
      match actingHostWaitingFor st with
      | [] =>
          fold_left
            (fun s ah =>
               if mem ah (connections s) then updateHostForClient L s ah (Some ah)
               else s)
            (actingHostIds st) st
      | _ => st
      end in
    Ok (set_actingHostsEnabled st1 true).

(** [handleEnd(reason, intent)]: [gameEndCanceled] is the listeners'
    decision on the [RoomGameEndEvent] and [endGame] the [EndGameMessage]
    built from the reason.  The components' [despawn] and the
    [setImmediate] callback that later clears the connections are not
    modelled, so the connections and players it leaves are not those of
    the source. *)
Definition handleEnd (L : Listeners) (st : RoomState)
    (gameEndCanceled : bool) (endGame : RootMessage) : RoomState :=
  let waiting := waitingForHost st in
  let st1 := set_state (set_waitingForHost st []) Ended in
  if gameEndCanceled
  then set_state (set_waitingForHost st1 waiting) Started
  else broadcast L st1 [] true None [endGame].

(** The part of the room's configuration that says who hosts it: code,
    server-as-host flag, host id and acting hosts. *)
Definition hostConfig (st : RoomState) :=
  (code st, serverAsHost st, hostId st, actingHostsEnabled st,
   actingHostIds st).

(** The connection and player maps (their keys, in order). *)
Definition connsPlayers (st : RoomState) : list Z * list Z :=
  (connections st, players st).




(** [getRealConnections(players)], the players given by client id. *)
Definition getRealConnections (st : RoomState) (ps : list Z) : list Z :=
  fold_left
    (fun acc p => match getConnection st p with
                  | Some c => acc ++ [c]
                  | None => acc
                  end) ps [].

(** [getConnections(players, false)] *)
Definition getConnectionsUnfiltered (st : RoomState) (ps : list Z)
  : list (option Z) :=
  map (getConnection st) ps.

End BaseRoomMore.

(* ================================================================== *)
(** ** Anti-cheat: properties *)
(* ================================================================== *)

Module AntiCheatProofs.
Import AntiCheat Samples.

Lemma severity_eqb_true a b : severity_eqb a b = true <-> a = b.
Proof. destruct a, b; simpl; split; congruence. Qed.

Lemma onRpcMessage_found env room st msg c comp :
  isInitialSettings room (Some c) (data msg) = false ->
  netobjects_get room (netid msg) = Some comp ->
  onRpcMessage env room st msg (Some c) =
  if Z.eqb (ownerId comp) (-1) || negb (Z.eqb (ownerId comp) (clientId c))
  then mkOutcome false
         (snd (createInfraction env room st (clientId c) (roundTripPing c)
                 ForbiddenRpcInnernetObject Critical)) room
  else
    let '(inf, st1) := onRpcMessageData env room st comp (data msg) c in
    match inf with
    | Some i => if severity_eqb (severity i) Critical
                then mkOutcome false st1 room
                else mkOutcome true st1 room
    | None => mkOutcome true st1 room
    end.
Proof. intros Hinit Hcomp. unfold onRpcMessage. rewrite Hinit, Hcomp. reflexivity. Qed.

(** C1 (amended).  For an RPC that is not the host's initial
    [SyncSettings], whose net id resolves to a component and whose sender
    is known: [HandleRpc] is invoked only if the component's owner is the
    sender and is not [-1]; when the owner is [-1] or another client, the
    RPC is swallowed, the room is unchanged, and the only effect is a
    [Critical] [ForbiddenRpcInnernetObject] passed to [createInfraction]. *)
Theorem C1_ownership_gate env room st msg c comp
    (Hinit : isInitialSettings room (Some c) (data msg) = false)
    (Hcomp : netobjects_get room (netid msg) = Some comp) :
  (handled (onRpcMessage env room st msg (Some c)) = true ->
   ownerId comp = clientId c /\ ownerId comp <> -1) /\
  (ownerId comp = -1 \/ ownerId comp <> clientId c ->
   onRpcMessage env room st msg (Some c) =
   mkOutcome false
     (snd (createInfraction env room st (clientId c) (roundTripPing c)
             ForbiddenRpcInnernetObject Critical)) room).
Proof.
  rewrite (onRpcMessage_found env room st msg c comp Hinit Hcomp).
  split.
  - destruct (Z.eqb (ownerId comp) (-1)) eqn:E1; simpl; [intro H; discriminate H|].
    destruct (Z.eqb (ownerId comp) (clientId c)) eqn:E2; simpl;
      [|intro H; discriminate H].
    intros _. apply Z.eqb_eq in E2. apply Z.eqb_neq in E1. tauto.
  - intros [H|H].
    + rewrite H. reflexivity.
    + apply Z.eqb_neq in H. rewrite H, orb_true_r. reflexivity.
Qed.

Lemma C1_ownership_gate_witness :
  isInitialSettings room1 (Some senderAlice) (PlainRpcMessage SendChat) = false /\
  netobjects_get room1 11 = Some ownerless /\
  handled (onRpcMessage env1 room1 emptyAc
             (mkRpcMessage 11 (PlainRpcMessage SendChat)) (Some senderAlice))
  = false.
Proof.
  refine (conj eq_refl (conj eq_refl _)).
  rewrite (proj2 (C1_ownership_gate env1 room1 emptyAc
                    (mkRpcMessage 11 (PlainRpcMessage SendChat)) senderAlice
                    ownerless eq_refl eq_refl) (or_introl eq_refl)).
  reflexivity.
Defined.

(** C1 counterexample: Alice's [SendChat] aimed at a component with
    owner [-1] is rejected on ownership grounds (not applied, [ForbiddenRpcInnernetObject] recorded), whereas
    the same RPC on the sender's own [PlayerControl] is applied. *)
Lemma C1_ownerless_component_rejected :
  onRpcMessage env1 room1 emptyAc
    (mkRpcMessage 11 (PlainRpcMessage SendChat)) (Some senderAlice)
  = mkOutcome false
      (mkAcState [mkInfraction 101 50 ForbiddenRpcInnernetObject Critical] [])
      room1 /\
  handled (onRpcMessage env1 room1 emptyAc
             (mkRpcMessage 10 (PlainRpcMessage SendChat)) (Some senderAlice))
  = true.
Proof. split; reflexivity. Qed.

(** C2 (amended).  Once the ownership check has passed, [HandleRpc] is
    skipped exactly when [onRpcMessageData] returns an infraction of
    severity [Critical]; any other returned infraction ([High],
    [Medium], [Low]) and no infraction at all let the RPC through. *)
Theorem C2_only_critical_suppresses env room st msg c comp
    (Hinit : isInitialSettings room (Some c) (data msg) = false)
    (Hcomp : netobjects_get room (netid msg) = Some comp)
    (Hown : ownerId comp = clientId c) (Hnot : ownerId comp <> -1) :
  onRpcMessage env room st msg (Some c) =
  let '(inf, st1) := onRpcMessageData env room st comp (data msg) c in
  mkOutcome (match inf with
             | Some i => negb (severity_eqb (severity i) Critical)
             | None => true
             end) st1 room.
Proof.
  rewrite (onRpcMessage_found env room st msg c comp Hinit Hcomp).
  apply Z.eqb_neq in Hnot. rewrite Hnot. rewrite Hown, Z.eqb_refl. simpl.
  destruct (onRpcMessageData env room st comp (data msg) c) as [[i|] st1];
    [|reflexivity].
  destruct (severity_eqb (severity i) Critical); reflexivity.
Qed.

Lemma C2_only_critical_suppresses_witness :
  handled (onRpcMessage env1 room1 emptyAc
             (mkRpcMessage 20 (CastVoteMessage 0 1)) (Some senderAlice))
  = true.
Proof.
  rewrite (C2_only_critical_suppresses env1 room1 emptyAc
             (mkRpcMessage 20 (CastVoteMessage 0 1)) senderAlice meetingComp
             eq_refl eq_refl eq_refl ltac:(discriminate)).
  reflexivity.
Defined.

(** C2 counterexample: Alice has already voted; her second [CastVote]
    yields a [High] [DuplicateRpcMeetingVote] and is still handed to
    [HandleRpc] of the meeting hud. *)
Lemma C2_duplicate_vote_still_applied :
  onRpcMessage env1 room1 emptyAc
    (mkRpcMessage 20 (CastVoteMessage 0 1)) (Some senderAlice)
  = mkOutcome true
      (mkAcState [mkInfraction 101 50 DuplicateRpcMeetingVote High] [])
      room1.
Proof. reflexivity. Qed.

(** C5 (code bug, evaluated at the failing input).  With 100
    infractions buffered and the metrics plugin loaded, appending a
    [High] infraction leaves 101 unflushed and flushes nothing, because
    [createInfraction] returns before its size check for every severity
    other than [LOW]; appending a [Low] one instead flushes the batch. *)
Theorem C5_threshold_flush_skipped_for_high :
  let r := createInfraction env1 room1 ac100 1 50 InvalidRpcCode High in
  List.length (unflushedPlayerInfractions (snd r)) = 101%nat /\
  flushedBatches (snd r) = [] /\
  let r' := createInfraction env1 room1 ac100 1 50 InvalidRpcCode Low in
  unflushedPlayerInfractions (snd r') = [] /\
  List.length (flushedBatches (snd r')) = 1%nat.
Proof. vm_compute. repeat split; reflexivity. Qed.

Lemma case_CastVote_verdict env room c comp v s :
  rpcVerdict env room c comp (CastVoteMessage v s) =
  match case_CastVote room c (CastVoteMessage v s) with
  | Some r => r
  | None => if rightComponent room comp (CastVoteMessage v s) then None
            else Some (ForbiddenRpcCode, Critical)
  end.
Proof. reflexivity. Qed.

(** C6 (amended).  What a [CastVote] from [c] asks [createInfraction]
    for: an unknown voter gives [High] [ForbiddenRpcMeetingVote]; a voter
    that belongs to another client gives [Critical]
    [ForbiddenRpcMeetingVote]; for the sender's own voter with a vote
    state in the meeting hud, a second vote gives [High]
    [DuplicateRpcMeetingVote], and a dead suspect, or an unknown suspect
    other than [255], gives [High] [InvalidRpcMeetingVote]; without a
    vote state for the voter no infraction at all is raised. *)
Theorem C6_castvote_severities env room c comp v s :
  (getPlayerByPlayerId room (Some v) = None ->
   rpcVerdict env room c comp (CastVoteMessage v s)
   = Some (ForbiddenRpcMeetingVote, High)) /\
  (forall p, getPlayerByPlayerId room (Some v) = Some p ->
   p_clientId p <> clientId c ->
   rpcVerdict env room c comp (CastVoteMessage v s)
   = Some (ForbiddenRpcMeetingVote, Critical)) /\
  (forall p mh vs, getPlayerByPlayerId room (Some v) = Some p ->
   p_clientId p = clientId c -> meetingHud room = Some mh ->
   voteStates_get mh (Some v) = Some vs ->
   (hasVoted vs = true ->
    rpcVerdict env room c comp (CastVoteMessage v s)
    = Some (DuplicateRpcMeetingVote, High)) /\
   (hasVoted vs = false ->
    (exists sp, getPlayerByPlayerId room (Some s) = Some sp /\
                p_isDead sp = Some true) \/
    (getPlayerByPlayerId room (Some s) = None /\ s <> 255) ->
    rpcVerdict env room c comp (CastVoteMessage v s)
    = Some (InvalidRpcMeetingVote, High))) /\
  (forall p, getPlayerByPlayerId room (Some v) = Some p ->
   p_clientId p = clientId c ->
   match meetingHud room with
   | Some mh => voteStates_get mh (Some v) | None => None end = None ->
   rpcVerdict env room c comp (CastVoteMessage v s) = None).
Proof.
  rewrite case_CastVote_verdict. unfold case_CastVote. simpl field_votingid.
  simpl field_suspectid.
  split; [intro H; rewrite H; reflexivity|].
  split.
  { intros p H Hne. rewrite H. apply Z.eqb_neq in Hne. rewrite Hne.
    reflexivity. }
  split.
  { intros p mh vs H Hc Hmh Hvs. rewrite H. rewrite Hc, Z.eqb_refl.
    simpl negb. cbv iota. rewrite Hmh, Hvs. split.
    - intro Hv. rewrite Hv. reflexivity.
    - intros Hv [[sp [Hs Hd]] | [Hs Hne]]; rewrite Hv.
      + rewrite Hs, Hd. reflexivity.
      + rewrite Hs. simpl. apply Z.eqb_neq in Hne. rewrite Hne.
        reflexivity. }
  intros p H Hc Hnone. rewrite H, Hc, Z.eqb_refl. simpl negb. cbv iota.
  rewrite Hnone. reflexivity.
Qed.

(** C6 counterexample: Alice casts a vote as Bob (player id 1): the
    infraction recorded is [Critical], not [High]. *)
Lemma C6_vote_as_other_player_is_critical :
  fst (onRpcMessageData env1 room1 emptyAc meetingComp
         (CastVoteMessage 1 0) senderAlice)
  = Some (mkInfraction 101 50 ForbiddenRpcMeetingVote Critical).
Proof. reflexivity. Qed.

(** C7 (code bug).  A [SetHat] from a logged-in sender whose hat is a
    member of [Hat] (or owned as a [HAT]) falls through into the
    [SetPet] case, which reads the missing [pet] field ([undefined],
    neither a [Pet] member nor an owned [PET]), so a [Critical]
    [InvalidRpcPet] is requested for a valid hat. *)
Theorem C7_valid_sethat_flagged_as_pet env room c comp hat u
    (Huser : getConnectionUser env (clientId c) = Some u)
    (Hnot : hat <> 9999999)
    (Hvalid : isHat env hat = true \/ ownsCosmetic u "HAT" (Some hat) = true) :
  rpcVerdict env room c comp (SetHatMessage hat)
  = Some (InvalidRpcPet, Critical).
Proof.
  unfold rpcVerdict, firstSwitch. simpl messageTag. cbv iota.
  unfold case_SetHat. simpl field_hat.
  unfold opt_eqb. apply Z.eqb_neq in Hnot. rewrite Hnot.
  rewrite Huser.
  assert (Hb : negb (in_enum (isHat env) (Some hat))
               && negb (ownsCosmetic u "HAT" (Some hat)) = false).
  { simpl. destruct Hvalid as [H|H]; rewrite H; simpl;
      [reflexivity | apply andb_false_r]. }
  rewrite Hb.
  unfold case_SetPet. simpl field_pet. rewrite Huser.
  assert (Hown : ownsCosmetic u "PET" None = false).
  { unfold ownsCosmetic. induction (owned_cosmetics u) as [|k ks IH];
      [reflexivity|]. simpl. exact IH. }
  rewrite Hown. reflexivity.
Qed.

Lemma C7_valid_sethat_flagged_as_pet_witness :
  rpcVerdict env1 room1 senderAlice aliceControl (SetHatMessage 3)
  = Some (InvalidRpcPet, Critical) /\
  handled (onRpcMessage env1 room1 emptyAc
             (mkRpcMessage 10 (SetHatMessage 3)) (Some senderAlice)) = false.
Proof.
  split.
  - apply (C7_valid_sethat_flagged_as_pet env1 room1 senderAlice aliceControl
             3 (mkUser 101 "player" [])); [reflexivity | discriminate | left; reflexivity].
  - reflexivity.
Defined.

End AntiCheatProofs.

(* ================================================================== *)
(** ** BaseRoom: properties *)
(* ================================================================== *)

Module BaseRoomProofs.
Import BaseRoom RoomSamples.

Lemma cfg_emit st ev : roomConfig (emit st ev) = roomConfig st.
Proof. reflexivity. Qed.

Lemma cfg_sendPacket st c rel ms :
  roomConfig (sendPacket st c rel ms) = roomConfig st.
Proof. destruct rel; reflexivity. Qed.

Lemma sent_sendPacket st c ms :
  exists n, sent (sendPacket st c true ms) = sent st ++ [(c, ReliablePacket n ms)].
Proof. eexists. reflexivity. Qed.

Lemma cfg_broadcastTo L st c gd pl tt rel :
  roomConfig (broadcastTo L st c gd pl tt rel) = roomConfig st.
Proof.
  unfold broadcastTo.
  destruct (onClientBroadcast L c gd pl) as [canceled altered].
  destruct canceled; [reflexivity|].
  match goal with |- context [match ?m with [] => _ | _ :: _ => _ end] =>
    destruct m end; [reflexivity|].
  rewrite cfg_sendPacket. reflexivity.
Qed.

Lemma cfg_fold_left {A} (f : RoomState -> A -> RoomState) :
  (forall s x, roomConfig (f s x) = roomConfig s) ->
  forall l s, roomConfig (fold_left f l s) = roomConfig s.
Proof.
  intros Hf l. induction l as [|x l IH]; intro s; [reflexivity|].
  simpl. rewrite IH. apply Hf.
Qed.

Lemma cfg_broadcastMessages L st gd pl inc exc rel :
  roomConfig (broadcastMessages L st gd pl inc exc rel) = roomConfig st.
Proof.
  unfold broadcastMessages.
  destruct gd, pl; try reflexivity;
  (destruct (match inc with Some l => l | None => connections st end)
     as [|c [|c' l]];
   [ reflexivity
   | destruct (mem c _); [reflexivity | apply cfg_broadcastTo]
   | apply cfg_fold_left; intros s x; destruct (mem x _);
     [reflexivity | apply cfg_broadcastTo] ]).
Qed.

Lemma cfg_updateHostForClient L st h r :
  roomConfig (updateHostForClient L st h r) = roomConfig st.
Proof. apply cfg_broadcastMessages. Qed.


Lemma cfg_finished s s' :
  roomConfig s' = roomConfig s ->
  finishedActingHostTransactionRoutine s' = finishedActingHostTransactionRoutine s.
Proof. unfold roomConfig. intro H. inversion H. reflexivity. Qed.






Lemma cfg_removePlayerHostFor s s' c :
  roomConfig s' = roomConfig s ->
  removePlayerHostFor s' c = removePlayerHostFor s c /\ code s' = code s.
Proof.
  unfold roomConfig, removePlayerHostFor. intro H. inversion H. auto.
Qed.

Lemma broadcastRemovePlayer_fan leaving reason cs st :
  exists fan,
    sent (fold_left
            (fun st' c =>
               sendPacket st' c true
                 [RemovePlayerMessage (code st') leaving reason
                    (removePlayerHostFor st' c)]) cs st)
    = sent st ++ fan /\
    map fst fan = cs /\
    Forall (fun cp => packetMessages (snd cp) =
              [RemovePlayerMessage (code st) leaving reason
                 (removePlayerHostFor st (fst cp))]) fan /\
    roomConfig (fold_left
            (fun st' c =>
               sendPacket st' c true
                 [RemovePlayerMessage (code st') leaving reason
                    (removePlayerHostFor st' c)]) cs st) = roomConfig st.
Proof.
  revert st. induction cs as [|a cs IH]; intro st.
  - exists []. rewrite app_nil_r. repeat split; constructor.
  - cbn [fold_left].
    set (ms := [RemovePlayerMessage (code st) leaving reason
                  (removePlayerHostFor st a)]).
    destruct (sent_sendPacket st a ms) as [n Hn].
    pose proof (cfg_sendPacket st a true ms) as Hc.
    destruct (IH (sendPacket st a true ms)) as (fan & Hs & Hm & Hf & Hc').
    destruct (cfg_removePlayerHostFor _ _ a Hc) as [_ Hcode].
    exists ((a, ReliablePacket n ms) :: fan). repeat split.
    + rewrite Hs, Hn, <- app_assoc. reflexivity.
    + simpl. rewrite Hm. reflexivity.
    + constructor; [reflexivity|].
      eapply Forall_impl; [|exact Hf]. intros cp Hcp. rewrite Hcp.
      destruct (cfg_removePlayerHostFor _ _ (fst cp) Hc) as [Hh Hcd].
      rewrite Hh, Hcd. reflexivity.
    + rewrite Hc', Hc. reflexivity.
Qed.

Lemma handleRemoteLeave_ends L st leaving reason :
  remove_id leaving (connections st) <> [] ->
  exists st5, handleRemoteLeave L st leaving reason
              = broadcastRemovePlayer st5 leaving reason.
Proof.
  intro Hne. unfold handleRemoteLeave.
  set (st1 := set_connections
                (set_waitingForHost st (remove_id leaving (waitingForHost st)))
                (remove_id leaving (connections st))).
  destruct (handleLeave st1 leaving) as [pl st2] eqn:Hl.
  assert (Hc : connections st2 = remove_id leaving (connections st)).
  { unfold handleLeave in Hl. destruct (mem leaving (players st1));
      inversion Hl; reflexivity. }
  rewrite Hc. destruct (remove_id leaving (connections st)) as [|h t];
    [contradiction|].
  eexists. reflexivity.
Qed.

(** Steps of [handleRemoteLeave] before its final loop send no lone
    [RemovePlayer] for the leaving client. *)
Lemma nrp_refl leaving s : sentNoRemovePlayerOf leaving s s.
Proof. exists []. rewrite app_nil_r. split; reflexivity. Qed.

Lemma nrp_same_sent leaving s t u :
  sentNoRemovePlayerOf leaving s t -> sent u = sent t ->
  sentNoRemovePlayerOf leaving s u.
Proof. intros [pre [E F]] Hu. exists pre. rewrite Hu. split; assumption. Qed.

Ltac nrp_field := intros H; eapply nrp_same_sent; [exact H|reflexivity].

Lemma nrp_emit leaving s t ev :
  sentNoRemovePlayerOf leaving s t -> sentNoRemovePlayerOf leaving s (emit t ev).
Proof. nrp_field. Qed.

Lemma nrp_set_hostId leaving s t v :
  sentNoRemovePlayerOf leaving s t -> sentNoRemovePlayerOf leaving s (set_hostId t v).
Proof. nrp_field. Qed.

Lemma nrp_set_actingHostIds leaving s t v :
  sentNoRemovePlayerOf leaving s t ->
  sentNoRemovePlayerOf leaving s (set_actingHostIds t v).
Proof. nrp_field. Qed.

Lemma nrp_set_actingHostWaitingFor leaving s t v :
  sentNoRemovePlayerOf leaving s t ->
  sentNoRemovePlayerOf leaving s (set_actingHostWaitingFor t v).
Proof. nrp_field. Qed.

Lemma nrp_set_waitingForHost leaving s t v :
  sentNoRemovePlayerOf leaving s t ->
  sentNoRemovePlayerOf leaving s (set_waitingForHost t v).
Proof. nrp_field. Qed.

Lemma nrp_set_connections leaving s t v :
  sentNoRemovePlayerOf leaving s t ->
  sentNoRemovePlayerOf leaving s (set_connections t v).
Proof. nrp_field. Qed.

Lemma nrp_set_players leaving s t v :
  sentNoRemovePlayerOf leaving s t ->
  sentNoRemovePlayerOf leaving s (set_players t v).
Proof. nrp_field. Qed.

Lemma nrp_set_state leaving s t v :
  sentNoRemovePlayerOf leaving s t ->
  sentNoRemovePlayerOf leaving s (set_state t v).
Proof. nrp_field. Qed.

Lemma nrp_sendPacket leaving s t c rel ms :
  sentNoRemovePlayerOf leaving s t -> loneRemovePlayerOf leaving ms = false ->
  sentNoRemovePlayerOf leaving s (sendPacket t c rel ms).
Proof.
  intros [pre [E F]] Hms. destruct rel; unfold sendPacket.
  - destruct (getNextNonce t c) as [n t1] eqn:En.
    assert (Ht1 : sent t1 = sent t)
      by (unfold getNextNonce in En; injection En as _ <-; reflexivity).
    exists (pre ++ [(c, ReliablePacket n ms)]). cbn [sent set_sent].
    rewrite Ht1, E, app_assoc. split; [reflexivity|].
    rewrite filter_app, F. cbn. rewrite Hms. reflexivity.
  - exists (pre ++ [(c, UnreliablePacket ms)]). cbn [sent set_sent].
    rewrite E, app_assoc. split; [reflexivity|].
    rewrite filter_app, F. cbn. rewrite Hms. reflexivity.
Qed.

Lemma nrp_broadcastTo leaving s t L c gd a b r tt rel :
  sentNoRemovePlayerOf leaving s t ->
  sentNoRemovePlayerOf leaving s (broadcastTo L t c gd (a :: b :: r) tt rel).
Proof.
  intro H. unfold broadcastTo.
  destruct (onClientBroadcast L c gd (a :: b :: r)) as [[] alt];
    [apply nrp_emit, H|].
  destruct alt; (apply nrp_sendPacket; [apply nrp_emit, H|reflexivity]).
Qed.

Lemma nrp_broadcastMessages leaving s t L gd a b r inc exc rel :
  sentNoRemovePlayerOf leaving s t ->
  sentNoRemovePlayerOf leaving s
    (broadcastMessages L t gd (a :: b :: r) inc exc rel).
Proof.
  intro H.
  assert (Hf : forall excl tt l t', sentNoRemovePlayerOf leaving s t' ->
            sentNoRemovePlayerOf leaving s
              (fold_left (fun st' connection =>
                 if mem connection excl then st'
                 else broadcastTo L st' connection gd (a :: b :: r) tt rel) l t')).
  { intros excl tt l. induction l as [|x l IH]; intros t' Ht; [exact Ht|].
    cbn [fold_left]. apply IH.
    destruct (mem x excl); [exact Ht|apply nrp_broadcastTo, Ht]. }
  unfold broadcastMessages.
  destruct gd;
  (destruct (match inc with Some l => l | None => connections t end)
     as [|c [|c' l]];
   [apply Hf, H
   | destruct (mem c _); [exact H|apply nrp_broadcastTo, H]
   | apply Hf, H]).
Qed.

Lemma nrp_updateHostForClient leaving s t L h r :
  sentNoRemovePlayerOf leaving s t ->
  sentNoRemovePlayerOf leaving s (updateHostForClient L t h r).
Proof. intro H. unfold updateHostForClient, broadcast. apply nrp_broadcastMessages, H. Qed.

Lemma nrp_fold_updateHostForClient leaving s L l t :
  sentNoRemovePlayerOf leaving s t ->
  sentNoRemovePlayerOf leaving s
    (fold_left (fun s' ah => if mem ah (connections s')
                             then updateHostForClient L s' ah (Some ah) else s')
       l t).
Proof.
  revert t. induction l as [|x l IH]; intros t H; [exact H|].
  cbn [fold_left]. apply IH.
  destruct (mem x (connections t)); [apply nrp_updateHostForClient|]; exact H.
Qed.

Lemma nrp_addActingHost leaving s t L p b :
  sentNoRemovePlayerOf leaving s t ->
  sentNoRemovePlayerOf leaving s (addActingHost L t p b).
Proof.
  intro H. unfold addActingHost. cbv zeta.
  destruct (actingHostWaitingFor _); [destruct (_ || _)|];
    try apply nrp_updateHostForClient; apply nrp_set_actingHostIds, H.
Qed.

Lemma nrp_joinOtherClients leaving s t :
  sentNoRemovePlayerOf leaving s t ->
  sentNoRemovePlayerOf leaving s (joinOtherClients t).
Proof.
  intro H. unfold joinOtherClients. apply nrp_set_waitingForHost.
  generalize (connections t). intro l. revert t H.
  induction l as [|x l IH]; intros t H; [exact H|].
  cbn [fold_left]. apply IH.
  destruct (mem x (waitingForHost t)); [|exact H].
  apply nrp_sendPacket; [apply nrp_set_waitingForHost, H|reflexivity].
Qed.

Ltac nrp_step :=
  first
  [ assumption
  | apply nrp_updateHostForClient | apply nrp_addActingHost
  | apply nrp_joinOtherClients | apply nrp_fold_updateHostForClient
  | apply nrp_emit | apply nrp_set_hostId | apply nrp_set_state
  | apply nrp_set_actingHostIds | apply nrp_set_actingHostWaitingFor
  | match goal with
    | |- sentNoRemovePlayerOf _ _ (if ?b then _ else _) => destruct b
    | |- sentNoRemovePlayerOf _ _ (match ?x with _ => _ end) => destruct x
    end ].

Lemma handleRemoteLeave_ends_nrp L st leaving reason :
  remove_id leaving (connections st) <> [] ->
  exists st5, handleRemoteLeave L st leaving reason
              = broadcastRemovePlayer st5 leaving reason /\
              sentNoRemovePlayerOf leaving st st5.
Proof.
  intro Hne. unfold handleRemoteLeave.
  set (st1 := set_connections
                (set_waitingForHost st (remove_id leaving (waitingForHost st)))
                (remove_id leaving (connections st))).
  assert (Q1 : sentNoRemovePlayerOf leaving st st1)
    by (apply nrp_set_connections, nrp_set_waitingForHost, nrp_refl).
  destruct (handleLeave st1 leaving) as [pl st2] eqn:Hl.
  assert (Hc : connections st2 = remove_id leaving (connections st)).
  { unfold handleLeave in Hl. destruct (mem leaving (players st1));
      inversion Hl; reflexivity. }
  assert (Q2 : sentNoRemovePlayerOf leaving st st2).
  { unfold handleLeave in Hl. destruct (mem leaving (players st1));
      injection Hl as _ <-; [apply nrp_set_players|]; exact Q1. }
  clearbody st1. clear Hl.
  rewrite Hc. destruct (remove_id leaving (connections st)) as [|h t];
    [contradiction|].
  cbv zeta. eexists. split; [reflexivity|].
  repeat nrp_step.
Qed.

(** C3 (amended).  After [handleRemoteLeave] on a room that keeps at
    least one connection, the packets it sends whose only message is a
    [RemovePlayer] for the leaving client are exactly one per remaining
    connection, in connection order (host-view updates it makes through
    [broadcast] are not among them, whenever they are sent).  Outside
    server-as-host mode the host field is the recipient's own client id
    when acting hosts are enabled and the recipient is an acting host,
    and [room.hostId] otherwise; in server-as-host mode a recipient that
    is not an enabled acting host is sent [Server]. *)
Theorem C3_removeplayer_host_field L st leaving reason
    (Hrem : remove_id leaving (connections st) <> []) :
  let st' := handleRemoteLeave L st leaving reason in
  exists fresh fan,
    sent st' = sent st ++ fresh /\
    filter (fun cp => loneRemovePlayerOf leaving (packetMessages (snd cp)))
      fresh = fan /\
    map fst fan = connections st' /\
    Forall (fun cp =>
      (serverAsHost st' = false ->
       packetMessages (snd cp) =
       [RemovePlayerMessage (code st') leaving reason
          (if actingHostsEnabled st' && mem (fst cp) (actingHostIds st')
           then fst cp else hostId st')]) /\
      (serverAsHost st' = true ->
       actingHostsEnabled st' && mem (fst cp) (actingHostIds st') = false ->
       packetMessages (snd cp) =
       [RemovePlayerMessage (code st') leaving reason Server])) fan.
Proof.
  cbv zeta.
  destruct (handleRemoteLeave_ends_nrp L st leaving reason Hrem)
    as [st5 [E [pre [Hpre Hf0]]]].
  rewrite E. unfold broadcastRemovePlayer.
  destruct (broadcastRemovePlayer_fan leaving reason (connections st5) st5)
    as (fan & Hs & Hm & Hf & Hc).
  exists (pre ++ fan), fan.
  assert (Hfan : filter (fun cp => loneRemovePlayerOf leaving
                                     (packetMessages (snd cp))) fan = fan).
  { clear - Hf. induction Hf as [|cp l Hcp _ IH]; [reflexivity|].
    cbn [filter]. rewrite Hcp. cbn. rewrite Z.eqb_refl, IH. reflexivity. }
  set (st6 := fold_left _ (connections st5) st5) in *. clearbody st6.
  unfold roomConfig in Hc.
  injection Hc as Hcode Hsaah Hhost Hen Hah Hconn Hpl Hfin.
  rewrite Hcode, Hsaah, Hhost, Hen, Hah, Hconn.
  split; [rewrite Hs, Hpre, app_assoc; reflexivity|].
  split; [rewrite filter_app, Hf0, Hfan; reflexivity|].
  split; [exact Hm|].
  eapply Forall_impl; [|exact Hf]. intros cp Hcp. rewrite Hcp.
  unfold removePlayerHostFor. split.
  - intro H. rewrite H.
    destruct (actingHostsEnabled st5); reflexivity.
  - intros H Hnot. rewrite H. reflexivity.
Qed.

Lemma C3_removeplayer_host_field_witness :
  remove_id 3 (connections classicRoom) <> [] /\
  sent (handleRemoteLeave passive classicRoom 3 ReasonError) =
  [(1, ReliablePacket 1 [RemovePlayerMessage 42 3 ReasonError 1]);
   (2, ReliablePacket 1 [RemovePlayerMessage 42 3 ReasonError 2])].
Proof.
  split; [discriminate|].
  destruct (C3_removeplayer_host_field passive classicRoom 3 ReasonError
              ltac:(discriminate)) as (fresh & fan & _ & _ & _ & _).
  reflexivity.
Defined.

(** C3 counterexample: in the classic room hosted by 1 (not server as
    host), connection 2, still an acting host, is told that the host is
    2, not [room.hostId = 1]. *)
Lemma C3_classic_acting_host_told_itself :
  serverAsHost (handleRemoteLeave passive classicRoom 3 ReasonError) = false /\
  hostId (handleRemoteLeave passive classicRoom 3 ReasonError) = 1 /\
  In (2, ReliablePacket 1 [RemovePlayerMessage 42 3 ReasonError 2])
     (sent (handleRemoteLeave passive classicRoom 3 ReasonError)).
Proof. split; [reflexivity | split; [reflexivity | simpl; auto]]. Qed.

(** C8 (code bug, evaluated at the failing input).  Without [include],
    a room whose only connection is 5 receives the game data wrapped in
    [GameDataTo], while the same call on a room with connections 5 and 6
    wraps it in [GameData] for each of them. *)
Theorem C8_single_connection_gets_GameDataTo :
  sent (broadcastMessages passive (roomWith false 5 [] [5])
          [OpaqueGameData 1] [] None None true)
  = [(5, ReliablePacket 1 [GameDataToMessage 42 5 [OpaqueGameData 1]])] /\
  sent (broadcastMessages passive (roomWith false 5 [] [5; 6])
          [OpaqueGameData 1] [] None None true)
  = [(5, ReliablePacket 1 [GameDataMessage 42 [OpaqueGameData 1]]);
     (6, ReliablePacket 1 [GameDataMessage 42 [OpaqueGameData 1]])].
Proof. split; reflexivity. Qed.

(** C9.  [broadcastMessages] with no game data and no payloads returns
    the room state unchanged: no event emitted, no packet sent, no nonce
    drawn. *)
Theorem C9_empty_broadcast_is_noop L st include exclude reliable :
  broadcastMessages L st [] [] include exclude reliable = st.
Proof. reflexivity. Qed.

(** C10.  [handleRemoteJoin] for a client id that is already a key of
    [room.connections] leaves the room state unchanged (no player, no
    host selection, no event, no packet). *)
Theorem C10_rejoin_is_noop L st c (Hin : mem c (connections st) = true) :
  handleRemoteJoin L st c = st.
Proof. unfold handleRemoteJoin. rewrite Hin. reflexivity. Qed.

Lemma C10_rejoin_is_noop_witness :
  mem 2 (connections classicRoom) = true /\
  handleRemoteJoin passive classicRoom 2 = classicRoom.
Proof.
  split; [reflexivity|].
  apply (C10_rejoin_is_noop passive classicRoom 2). reflexivity.
Defined.

End BaseRoomProofs.

(* ================================================================== *)
(** ** Anti-cheat: further properties of the plugin *)
(* ================================================================== *)

Module AntiCheatExtra.
Import AntiCheat Samples AntiCheatMore AntiCheatProofs.

(** [createInfraction] creates an infraction exactly when the sender has
    a player, no role exception covers the infraction and the sender is
    logged in; it then carries the user's id, the connection's ping, and
    the given name and severity.  Otherwise the state is unchanged. *)
Theorem createInfraction_created env room st sender ping name sev :
  (forall i, fst (createInfraction env room st sender ping name sev) = Some i ->
   exists p u, getPlayer room sender = Some p /\
               roleException env sender name = false /\
               getConnectionUser env sender = Some u /\
               i = mkInfraction (user_id u) ping name sev) /\
  (fst (createInfraction env room st sender ping name sev) = None ->
   snd (createInfraction env room st sender ping name sev) = st) /\
  (forall p u, getPlayer room sender = Some p ->
   roleException env sender name = false ->
   getConnectionUser env sender = Some u ->
   fst (createInfraction env room st sender ping name sev)
   = Some (mkInfraction (user_id u) ping name sev)).
Proof.
  unfold createInfraction.
  destruct (getPlayer room sender) as [p|] eqn:Hp.
  2: { repeat split; [intros i H; discriminate H | intros p0 u H; discriminate H]. }
  destruct (roleException env sender name) eqn:Hr.
  { repeat split; [intros i H; discriminate H | intros p0 u _ H; discriminate H]. }
  destruct (getConnectionUser env sender) as [u|] eqn:Hu.
  2: { repeat split; [intros i H; discriminate H | intros p0 u _ _ H; discriminate H]. }
  assert (Hfst : fst (if negb (severity_eqb sev Low) then
      (Some (mkInfraction (user_id u) ping name sev),
       mkAcState (unflushedPlayerInfractions st ++
                  [mkInfraction (user_id u) ping name sev]) (flushedBatches st))
      else if Nat.ltb 100 (List.length (unflushedPlayerInfractions st ++
                  [mkInfraction (user_id u) ping name sev]))
      then (Some (mkInfraction (user_id u) ping name sev),
            flushPlayerInfractions env
              (mkAcState (unflushedPlayerInfractions st ++
                  [mkInfraction (user_id u) ping name sev]) (flushedBatches st)))
      else (Some (mkInfraction (user_id u) ping name sev),
       mkAcState (unflushedPlayerInfractions st ++
                  [mkInfraction (user_id u) ping name sev]) (flushedBatches st)))
      = Some (mkInfraction (user_id u) ping name sev)).
  { destruct (negb _); [reflexivity|]. destruct (Nat.ltb _ _); reflexivity. }
  simpl. rewrite Hfst. repeat split.
  - intros i Hi. injection Hi as <-. exists p, u. auto.
  - intro H. discriminate H.
  - intros p0 u0 _ _ Hu0. injection Hu0 as <-. reflexivity.
Qed.



(** An RPC without a known sender on an existing component skips every
    anti-cheat check: it is handed to [HandleRpc] and records nothing. *)
Theorem onRpcMessage_no_sender env room st msg comp
    (Hcomp : netobjects_get room (netid msg) = Some comp) :
  onRpcMessage env room st msg None = mkOutcome true st room.
Proof.
  unfold onRpcMessage. unfold isInitialSettings.
  destruct (host room); simpl; rewrite Hcomp; reflexivity.
Qed.

Lemma onRpcMessage_no_sender_witness :
  handled (onRpcMessage env1 room1 emptyAc
             (mkRpcMessage 10 (PlainRpcMessage Close)) None) = true.
Proof.
  rewrite (onRpcMessage_no_sender env1 room1 emptyAc
             (mkRpcMessage 10 (PlainRpcMessage Close)) aliceControl eq_refl).
  reflexivity.
Defined.



Lemma createInfraction_created_witness :
  fst (createInfraction env1 room1 emptyAc 2 80 InvalidRpcColor Critical)
  = Some (mkInfraction 102 80 InvalidRpcColor Critical).
Proof.
  apply (proj2 (proj2 (createInfraction_created env1 room1 emptyAc 2 80
                         InvalidRpcColor Critical))
           bob (mkUser 102 "player" []) eq_refl eq_refl eq_refl).
Defined.


Lemma createInfraction_not_low env room st sender ping name sev :
  sev <> Low ->
  exists o, createInfraction env room st sender ping name sev =
            (o, mkAcState (unflushedPlayerInfractions st ++ option_list o)
                          (flushedBatches st)) /\
            (forall i, o = Some i -> severity i = sev).
Proof.
  intro Hs. unfold createInfraction.
  destruct (getPlayer room sender);
    [|exists None; rewrite app_nil_r; destruct st; split; [reflexivity|discriminate]].
  destruct (roleException env sender name);
    [exists None; rewrite app_nil_r; destruct st; split; [reflexivity|discriminate]|].
  destruct (getConnectionUser env sender) as [u|];
    [|exists None; rewrite app_nil_r; destruct st; split; [reflexivity|discriminate]].
  assert (Hn : negb (severity_eqb sev Low) = true)
    by (destruct sev; [contradiction|reflexivity..]).
  rewrite Hn. exists (Some (mkInfraction (user_id u) ping name sev)).
  split; [reflexivity|].
  intros i Hi. injection Hi as <-. reflexivity.
Qed.

Ltac destruct_matches :=
  repeat match goal with
         | |- context [match ?x with _ => _ end] =>
             lazymatch x with
             | context [match _ with _ => _ end] => fail
             | _ => destruct x
             end
         end.

Lemma rpcVerdict_not_low env room c comp m n :
  rpcVerdict env room c comp m <> Some (n, Low).
Proof.
  unfold rpcVerdict, firstSwitch, case_CastVote, case_SetHat, case_SetPet,
    case_SetSkin.
  destruct m as [| | | | | | | | |t]; [| | | | | | | | |destruct t];
    cbn [messageTag]; destruct_matches; discriminate.
Qed.

(** [onRpcMessage] records at most one infraction and never flushes:
    RPC infractions are never [Low] (the only severity whose buffer size
    triggers a flush), so the batches handed to the metrics sink are
    untouched and the buffer grows by zero or one element. *)
Theorem onRpcMessage_appends_at_most_one env room st msg sender :
  exists o : option PlayerInfraction,
    acState (onRpcMessage env room st msg sender) =
    mkAcState (unflushedPlayerInfractions st ++ option_list o)
              (flushedBatches st).
Proof.
  assert (Hst : st = mkAcState (unflushedPlayerInfractions st ++ option_list None)
                               (flushedBatches st))
    by (rewrite app_nil_r; destruct st; reflexivity).
  unfold onRpcMessage.
  destruct (isInitialSettings room sender (data msg)).
  { exists None. destruct (data msg); exact Hst. }
  destruct (netobjects_get room (netid msg)) as [comp|];
    destruct sender as [c|]; try (exists None; exact Hst).
  - destruct (_ || _).
    + destruct (createInfraction_not_low env room st (clientId c)
                  (roundTripPing c) ForbiddenRpcInnernetObject Critical
                  ltac:(discriminate)) as [o [E _]].
      exists o. rewrite E. reflexivity.
    + unfold onRpcMessageData.
      destruct (rpcVerdict env room c comp (data msg)) as [[n s]|] eqn:Hv;
        [|exists None; exact Hst].
      assert (Hs : s <> Low)
        by (intro; subst; exact (rpcVerdict_not_low _ _ _ _ _ _ Hv)).
      destruct (createInfraction_not_low env room st (clientId c)
                  (roundTripPing c) n s Hs) as [o [E _]].
      rewrite E. exists o.
      destruct o as [i|]; [destruct (severity_eqb _ _)|]; reflexivity.
  - destruct (createInfraction_not_low env room st (clientId c)
                (roundTripPing c) UnknownRpcInnernetObject Medium
                ltac:(discriminate)) as [o [E _]].
    exists o. rewrite E. reflexivity.
Qed.



(** [UpdateSystem] passes the first [switch] ([break]) but has no case
    in the second, so it always asks for a [Critical] [ForbiddenRpcCode],
    whatever component carries it. *)
Theorem updateSystem_always_forbidden env room c comp m
    (Htag : messageTag m = UpdateSystem) :
  rpcVerdict env room c comp m = Some (ForbiddenRpcCode, Critical).
Proof. unfold rpcVerdict, firstSwitch, rightComponent. rewrite Htag. reflexivity. Qed.

Lemma updateSystem_always_forbidden_witness :
  rpcVerdict env1 room1 senderAlice aliceControl (PlainRpcMessage UpdateSystem)
  = Some (ForbiddenRpcCode, Critical).
Proof. exact (updateSystem_always_forbidden env1 room1 senderAlice aliceControl
                (PlainRpcMessage UpdateSystem) eq_refl). Defined.



(** [SetStartCounter] on a [PlayerControl] is accepted exactly when
    acting hosts are disabled or the sender is one of them. *)
Theorem setStartCounter_acting_hosts env room c comp m
    (Htag : messageTag m = SetStartCounter) (Hk : kind comp = KPlayerControl) :
  rpcVerdict env room c comp m = None <->
  actingHostsEnabled room = false \/ In (clientId c) (actingHostIds room).
Proof.
  unfold rpcVerdict, firstSwitch, rightComponent. rewrite Htag, Hk.
  destruct (actingHostsEnabled room); simpl; [|tauto].
  destruct (existsb (Z.eqb (clientId c)) (actingHostIds room)) eqn:E; simpl.
  - apply existsb_exists in E as [x [Hx Hxe]]. apply Z.eqb_eq in Hxe. subst.
    split; auto.
  - split; [discriminate|]. intros [H|H]; [discriminate|].
    assert (existsb (Z.eqb (clientId c)) (actingHostIds room) = true)
      by (apply existsb_exists; exists (clientId c); split; [exact H|apply Z.eqb_refl]).
    congruence.
Qed.

Lemma setStartCounter_acting_hosts_witness :
  rpcVerdict env1 room1 senderAlice aliceControl
    (PlainRpcMessage SetStartCounter) <> None.
Proof.
  intro H.
  apply (setStartCounter_acting_hosts env1 room1 senderAlice aliceControl
           (PlainRpcMessage SetStartCounter) eq_refl eq_refl) in H.
  destruct H as [H|H]; [discriminate H|contradiction H].
Defined.

(** Early [return]s of the first [switch] skip the component check of
    the second: a [SetHat], [SetPet] or [SetSkin] with the "none" id
    [9999999], and a [CheckName] from a client that is not logged in,
    are accepted on any component. *)
Theorem early_returns_skip_component_check env room c comp name :
  rpcVerdict env room c comp (SetHatMessage 9999999) = None /\
  rpcVerdict env room c comp (SetPetMessage 9999999) = None /\
  rpcVerdict env room c comp (SetSkinMessage 9999999) = None /\
  (getConnectionUser env (clientId c) = None ->
   rpcVerdict env room c comp (CheckNameMessage name) = None).
Proof.
  unfold rpcVerdict, firstSwitch. repeat split.
  intro H. simpl. rewrite H. reflexivity.
Qed.

Lemma early_returns_skip_component_check_witness :
  rpcVerdict envNoLogin room1 senderAlice meetingComp
    (CheckNameMessage "anything") = None.
Proof.
  exact (proj2 (proj2 (proj2 (early_returns_skip_component_check envNoLogin
           room1 senderAlice meetingComp "anything"))) eq_refl).
Defined.



(** [SnapTo] is accepted exactly on a [CustomNetworkTransform] of a room
    whose ship is the Airship. *)
Theorem snapTo_airship_only env room c comp m
    (Htag : messageTag m = SnapTo) :
  rpcVerdict env room c comp m = None <->
  isAirshipLoaded room = true /\ kind comp = KCustomNetworkTransform.
Proof.
  unfold rpcVerdict, firstSwitch, rightComponent. rewrite Htag.
  destruct (isAirshipLoaded room); simpl;
    [|split; [discriminate|intros [H _]; discriminate H]].
  destruct (kind comp); simpl; split; intro H;
    solve [auto | discriminate H | destruct H as [_ H0]; discriminate H0].
Qed.

Lemma snapTo_airship_only_witness :
  rpcVerdict env1 room1 senderAlice aliceControl (PlainRpcMessage SnapTo)
  <> None.
Proof.
  intro H.
  apply (snapTo_airship_only env1 room1 senderAlice aliceControl
           (PlainRpcMessage SnapTo) eq_refl) in H.
  destruct H as [H _]. discriminate H.
Defined.

End AntiCheatExtra.

(* ================================================================== *)
(** ** Room: further properties of [BaseRoom] *)
(* ================================================================== *)

Module BaseRoomExtra.
Import BaseRoom RoomSamples BaseRoomMore BaseRoomProofs.

Lemma sendPacket_sent st c rel ms :
  exists pk, sent (sendPacket st c rel ms) = sent st ++ [(c, pk)] /\
             packetMessages pk = ms.
Proof. destruct rel; eexists; split; reflexivity. Qed.

Lemma broadcastTo_sent L st c gd pl tt rel :
  exists fresh, sent (broadcastTo L st c gd pl tt rel) = sent st ++ fresh /\
                Forall (fun cp => fst cp = c) fresh.
Proof.
  unfold broadcastTo.
  destruct (onClientBroadcast L c gd pl) as [canceled altered].
  destruct canceled; [exists []; rewrite app_nil_r; split; [reflexivity|constructor]|].
  assert (H : forall ms, exists fresh,
    sent (match ms with
          | [] => emit st (EvClientBroadcast c)
          | _ :: _ => sendPacket (emit st (EvClientBroadcast c)) c rel ms
          end) = sent st ++ fresh /\ Forall (fun cp => fst cp = c) fresh).
  { intros [|m ms].
    - exists []; rewrite app_nil_r; split; [reflexivity|constructor].
    - destruct (sendPacket_sent (emit st (EvClientBroadcast c)) c rel (m :: ms))
        as [pk [E _]].
      exists [(c, pk)]. split; [exact E|repeat constructor]. }
  apply H.
Qed.

Lemma broadcastTo_canceled L st c gd pl tt rel :
  fst (onClientBroadcast L c gd pl) = true ->
  sent (broadcastTo L st c gd pl tt rel) = sent st.
Proof.
  unfold broadcastTo. destruct (onClientBroadcast L c gd pl) as [canceled altered].
  cbn [fst]. intro H. subst canceled. reflexivity.
Qed.

Lemma fold_broadcast_sent L gd pl tt rel excl l s :
  exists fresh,
    sent (fold_left
            (fun st' conn => if mem conn excl then st'
                             else broadcastTo L st' conn gd pl tt rel) l s)
    = sent s ++ fresh /\
    Forall (fun cp => In (fst cp) l /\ mem (fst cp) excl = false) fresh.
Proof.
  revert s. induction l as [|x l IH]; intro s.
  - exists []. rewrite app_nil_r. split; [reflexivity|constructor].
  - simpl. destruct (mem x excl) eqn:Ex.
    + destruct (IH s) as [fresh [E F]]. exists fresh. split; [exact E|].
      eapply Forall_impl; [|exact F]. simpl. tauto.
    + destruct (broadcastTo_sent L s x gd pl tt rel) as [f1 [E1 F1]].
      destruct (IH (broadcastTo L s x gd pl tt rel)) as [f2 [E2 F2]].
      exists (f1 ++ f2). rewrite E2, E1, app_assoc. split; [reflexivity|].
      apply Forall_app. split.
      * eapply Forall_impl; [|exact F1]. simpl. intros cp ->. auto.
      * eapply Forall_impl; [|exact F2]. simpl. tauto.
Qed.

(** [broadcastMessages] only appends packets, and each of them goes to
    a client of the broadcast list ([include], or every connection) that
    is not in [exclude]. *)
Theorem broadcastMessages_recipients L st gd pl inc exc rel :
  let targets := match inc with Some l => l | None => connections st end in
  let excl := match exc with Some l => l | None => [] end in
  exists fresh,
    sent (broadcastMessages L st gd pl inc exc rel) = sent st ++ fresh /\
    Forall (fun cp => In (fst cp) targets /\ mem (fst cp) excl = false) fresh.
Proof.
  cbv zeta. unfold broadcastMessages.
  assert (Hgen : exists fresh,
    sent (match match inc with Some l => l | None => connections st end with
          | [singleClient] =>
              if mem singleClient (match exc with Some l => l | None => [] end)
              then st
              else broadcastTo L st singleClient gd pl true rel
          | _ =>
              fold_left
                (fun st' connection =>
                   if mem connection (match exc with Some l => l | None => [] end)
                   then st'
                   else broadcastTo L st' connection gd pl
                          (match inc with Some _ => true | None => false end) rel)
                (match inc with Some l => l | None => connections st end) st
          end) = sent st ++ fresh /\
    Forall (fun cp => In (fst cp) (match inc with Some l => l | None => connections st end)
                      /\ mem (fst cp) (match exc with Some l => l | None => [] end)
                         = false) fresh).
  { destruct (match inc with Some l => l | None => connections st end)
      as [|c [|c' l]].
    - exists []. rewrite app_nil_r. split; [reflexivity|constructor].
    - destruct (mem c _) eqn:Ex.
      + exists []. rewrite app_nil_r. split; [reflexivity|constructor].
      + destruct (broadcastTo_sent L st c gd pl true rel) as [f [E F]].
        exists f. split; [exact E|].
        eapply Forall_impl; [|exact F]. simpl. intros cp ->. auto.
    - apply fold_broadcast_sent. }
  destruct gd, pl; try exact Hgen.
  exists []. rewrite app_nil_r. split; [reflexivity|constructor].
Qed.

Lemma broadcastMessages_recipients_witness :
  sent (broadcastMessages passive (roomWith false 1 [] [1; 2; 3])
          [] [OpaqueRoot 0] None (Some [2]) true)
  = [(1, ReliablePacket 1 [OpaqueRoot 0]); (3, ReliablePacket 1 [OpaqueRoot 0])] /\
  exists fresh,
    sent (broadcastMessages passive (roomWith false 1 [] [1; 2; 3])
            [] [OpaqueRoot 0] None (Some [2]) true) = [] ++ fresh /\
    Forall (fun cp => In (fst cp) [1; 2; 3] /\ mem (fst cp) [2] = false) fresh.
Proof.
  split; [reflexivity|].
  exact (broadcastMessages_recipients passive (roomWith false 1 [] [1; 2; 3])
           [] [OpaqueRoot 0] None (Some [2]) true).
Defined.

(** When the listeners cancel every [ClientBroadcastEvent],
    [broadcastMessages] sends nothing at all. *)
Theorem broadcastMessages_all_canceled L st gd pl inc exc rel
    (Hcancel : forall c g p, fst (onClientBroadcast L c g p) = true) :
  sent (broadcastMessages L st gd pl inc exc rel) = sent st.
Proof.
  assert (Hfold : forall tt excl l s,
    sent (fold_left
            (fun st' conn => if mem conn excl then st'
                             else broadcastTo L st' conn gd pl tt rel) l s)
    = sent s).
  { intros tt excl l. induction l as [|x l IH]; intro s; [reflexivity|].
    simpl. rewrite IH. destruct (mem x excl); [reflexivity|].
    apply broadcastTo_canceled, Hcancel. }
  unfold broadcastMessages.
  destruct gd, pl; try reflexivity;
  (destruct (match inc with Some l => l | None => connections st end)
     as [|c [|c' l]];
   [reflexivity
   | destruct (mem c _); [reflexivity|apply broadcastTo_canceled, Hcancel]
   | apply Hfold]).
Qed.

Lemma broadcastMessages_all_canceled_witness :
  sent (broadcastMessages (mkListeners (fun _ gd _ => (true, gd))
                             (fun _ _ c => Some c) false)
          (roomWith false 1 [] [1; 2]) [] [OpaqueRoot 0] None None true) = [].
Proof.
  exact (broadcastMessages_all_canceled
           (mkListeners (fun _ gd _ => (true, gd)) (fun _ _ c => Some c) false)
           (roomWith false 1 [] [1; 2]) [] [OpaqueRoot 0] None None true
           (fun _ _ _ => eq_refl)).
Defined.

(** [updateHostForClient] for a recipient connection that has no player
    ([recipient.getPlayer()] is [undefined]) is a broadcast of the host
    change to every connection. *)
Theorem updateHostForClient_no_player L st hid c
    (Hp : mem c (players st) = false) :
  updateHostForClient L st hid (Some c) = updateHostForClient L st hid None.
Proof. unfold updateHostForClient, connGetPlayer. rewrite Hp. reflexivity. Qed.

Lemma updateHostForClient_no_player_witness :
  sent (updateHostForClient passive
          (set_players (roomWith false 1 [] [1; 2]) [1]) 1 (Some 2))
  = [(1, ReliablePacket 1 [JoinGameMessage 42 Temp 1;
                           RemovePlayerMessage 42 Temp ReasonError 1]);
     (2, ReliablePacket 1 [JoinGameMessage 42 Temp 1;
                           RemovePlayerMessage 42 Temp ReasonError 1])].
Proof.
  rewrite (updateHostForClient_no_player passive
             (set_players (roomWith false 1 [] [1; 2]) [1]) 1 2 eq_refl).
  reflexivity.
Defined.

Lemma getRealConnections_acc st ps acc :
  fold_left (fun acc p => match getConnection st p with
                          | Some c => acc ++ [c] | None => acc end) ps acc
  = acc ++ flat_map AntiCheatMore.option_list (getConnectionsUnfiltered st ps).
Proof.
  revert acc. induction ps as [|p ps IH]; intro acc.
  - simpl. rewrite app_nil_r. reflexivity.
  - simpl. rewrite IH.
    destruct (getConnection st p); simpl; [rewrite <- app_assoc|]; reflexivity.
Qed.

(** [getRealConnections] is [getConnections(players, false)] with the
    [undefined]s dropped; it only returns connections of the room, for
    the given players, and never client id 0. *)
Theorem getRealConnections_spec st ps :
  getRealConnections st ps =
  flat_map AntiCheatMore.option_list (getConnectionsUnfiltered st ps) /\
  (forall c, In c (getRealConnections st ps) ->
   In c ps /\ In c (connections st) /\ c <> 0).
Proof.
  assert (E : getRealConnections st ps =
              flat_map AntiCheatMore.option_list (getConnectionsUnfiltered st ps))
    by (unfold getRealConnections; rewrite getRealConnections_acc; reflexivity).
  split; [exact E|].
  intros c Hc. rewrite E in Hc. unfold getConnectionsUnfiltered in Hc.
  apply in_flat_map in Hc as [o [Ho Hc]].
  apply in_map_iff in Ho as [p [Hgp Hp]].
  unfold getConnection in Hgp.
  destruct (Z.eqb p 0) eqn:E0; [subst o; contradiction|].
  destruct (mem p (connections st)) eqn:Em; [|subst o; contradiction].
  subst o. destruct Hc as [<-|[]].
  apply Z.eqb_neq in E0. unfold mem in Em. apply existsb_exists in Em as [y [Hy Hey]].
  apply Z.eqb_eq in Hey. subst y. auto.
Qed.




Lemma cp_cfg s s' : roomConfig s' = roomConfig s -> connsPlayers s' = connsPlayers s.
Proof. unfold roomConfig, connsPlayers. intro H. inversion H. reflexivity. Qed.

Lemma cp_emit s ev : connsPlayers (emit s ev) = connsPlayers s.
Proof. reflexivity. Qed.
Lemma cp_sendPacket s c r ms : connsPlayers (sendPacket s c r ms) = connsPlayers s.
Proof. apply cp_cfg, cfg_sendPacket. Qed.
Lemma cp_broadcastMessages L s gd pl i e r :
  connsPlayers (broadcastMessages L s gd pl i e r) = connsPlayers s.
Proof. apply cp_cfg, cfg_broadcastMessages. Qed.
Lemma cp_broadcast L s ms r rc pl :
  connsPlayers (broadcast L s ms r rc pl) = connsPlayers s.
Proof. apply cp_broadcastMessages. Qed.
Lemma cp_updateHostForClient L s h r :
  connsPlayers (updateHostForClient L s h r) = connsPlayers s.
Proof. apply cp_cfg, cfg_updateHostForClient. Qed.
Lemma cp_set_state s v : connsPlayers (set_state s v) = connsPlayers s.
Proof. reflexivity. Qed.
Lemma cp_set_playerJoinedFlag s v :
  connsPlayers (set_playerJoinedFlag s v) = connsPlayers s.
Proof. reflexivity. Qed.
Lemma cp_set_waitingForHost s v :
  connsPlayers (set_waitingForHost s v) = connsPlayers s.
Proof. reflexivity. Qed.
Lemma cp_set_actingHostWaitingFor s v :
  connsPlayers (set_actingHostWaitingFor s v) = connsPlayers s.
Proof. reflexivity. Qed.
Lemma cp_set_hostId s v : connsPlayers (set_hostId s v) = connsPlayers s.
Proof. reflexivity. Qed.
Lemma cp_set_actingHostIds s v : connsPlayers (set_actingHostIds s v) = connsPlayers s.
Proof. reflexivity. Qed.
Lemma cp_set_serverAsHost s v : connsPlayers (set_serverAsHost s v) = connsPlayers s.
Proof. reflexivity. Qed.
Lemma cp_set_actingHostsEnabled s v :
  connsPlayers (set_actingHostsEnabled s v) = connsPlayers s.
Proof. reflexivity. Qed.
Lemma cp_spawnPrefab s t : connsPlayers (spawnPrefab s t) = connsPlayers s.
Proof. reflexivity. Qed.
Lemma cp_set_connections_add s c :
  connsPlayers (set_connections s (add_id c (connections s))) =
  (add_id c (fst (connsPlayers s)), snd (connsPlayers s)).
Proof. reflexivity. Qed.
Lemma cp_set_connections s v :
  connsPlayers (set_connections s v) = (v, snd (connsPlayers s)).
Proof. reflexivity. Qed.
Lemma cp_addActingHost L s p b : connsPlayers (addActingHost L s p b) = connsPlayers s.
Proof.
  unfold addActingHost.
  destruct (actingHostWaitingFor _); [destruct (_ || _)|];
    rewrite ?cp_updateHostForClient; reflexivity.
Qed.
Lemma cp_fold {A} (f : RoomState -> A -> RoomState) :
  (forall s x, connsPlayers (f s x) = connsPlayers s) ->
  forall l s, connsPlayers (fold_left f l s) = connsPlayers s.
Proof.
  intros Hf l. induction l as [|x l IH]; intro s; [reflexivity|].
  simpl. rewrite IH. apply Hf.
Qed.
Lemma cp_joinOtherClients s : connsPlayers (joinOtherClients s) = connsPlayers s.
Proof.
  unfold joinOtherClients. rewrite cp_set_waitingForHost, cp_fold; [reflexivity|].
  intros s' x. destruct (mem x _); [rewrite cp_sendPacket|]; reflexivity.
Qed.
Lemma cp_tellHosts L s : connsPlayers (tellHosts L s) = connsPlayers s.
Proof.
  unfold tellHosts. apply cp_fold. intros s' x.
  destruct (_ && _); apply cp_updateHostForClient.
Qed.
Lemma cp_destroy L s r : connsPlayers (destroy L s r) = connsPlayers s.
Proof.
  unfold destroy. destruct (beforeDestroyCanceled L); [reflexivity|].
  rewrite cp_emit, cp_set_state, cp_broadcast. reflexivity.
Qed.
Lemma cp_broadcastRemovePlayer s l r :
  connsPlayers (broadcastRemovePlayer s l r) = connsPlayers s.
Proof. unfold broadcastRemovePlayer. apply cp_fold. intros. apply cp_sendPacket. Qed.

Ltac cp_fold_side :=
  intros ? ?; cbv beta;
  first [ apply cp_sendPacket | apply cp_updateHostForClient
        | match goal with |- context [if ?b then _ else _] => destruct b end;
          first [ apply cp_sendPacket | apply cp_updateHostForClient
                | reflexivity ] ].

Ltac cp_step :=
  first
    [ rewrite cp_emit | rewrite cp_sendPacket | rewrite cp_broadcast
    | rewrite cp_broadcastMessages | rewrite cp_updateHostForClient
    | rewrite cp_joinOtherClients | rewrite cp_tellHosts | rewrite cp_destroy
    | rewrite cp_broadcastRemovePlayer
    | rewrite cp_spawnPrefab | rewrite cp_set_state
    | rewrite cp_set_playerJoinedFlag | rewrite cp_set_waitingForHost
    | rewrite cp_set_actingHostWaitingFor | rewrite cp_set_hostId
    | rewrite cp_set_actingHostIds | rewrite cp_set_serverAsHost
    | rewrite cp_set_actingHostsEnabled | rewrite cp_addActingHost
    | rewrite cp_set_connections_add | rewrite cp_set_connections
    | rewrite cp_fold by cp_fold_side
    | match goal with
      | |- context [connsPlayers (if ?b then _ else _)] => destruct b
      | |- context [connsPlayers (match ?x with _ => _ end)] => destruct x
      end ].

Lemma handleJoin_cp st c :
  connections (handleJoin st c) = connections st /\
  In c (players (handleJoin st c)).
Proof.
  unfold handleJoin. destruct (mem c (players st)) eqn:E.
  - split; [reflexivity|]. unfold mem in E. apply existsb_exists in E as [y [Hy Hc]].
    apply Z.eqb_eq in Hc. subst. exact Hy.
  - destruct (hostIsMe _); simpl; (split; [reflexivity|apply in_or_app; right; left; reflexivity]).
Qed.

(** [handleRemoteJoin] of a client that has no connection yet adds it at
    the end of the connection map and gives it a player, on every path
    (lobby, or a finished game whether it rejoins as the host or waits
    for the host). *)
Theorem handleRemoteJoin_adds_client L st c
    (Hnew : mem c (connections st) = false) :
  connections (handleRemoteJoin L st c) = connections st ++ [c] /\
  In c (players (handleRemoteJoin L st c)).
Proof.
  unfold handleRemoteJoin. rewrite Hnew.
  destruct (handleJoin_cp st c) as [Hc1 Hp1].
  set (st1 := handleJoin st c) in *. clearbody st1.
  match goal with
  | |- context [gameState_eqb (state ?s2) Ended && negb (serverAsHost ?s2)] =>
      set (st2 := s2)
  end.
  assert (H2 : connsPlayers st2 = connsPlayers st1).
  { subst st2. repeat cp_step; reflexivity. }
  clearbody st2.
  assert (Hc2 : connections st2 = connections st)
    by (rewrite <- Hc1; exact (f_equal fst H2)).
  assert (Hp2 : In c (players st2))
    by (change (players st2) with (snd (connsPlayers st2)); rewrite H2; exact Hp1).
  assert (Hadd : add_id c (connections st2) = connections st ++ [c])
    by (unfold add_id; rewrite Hc2, Hnew; reflexivity).
  match goal with
  | |- connections ?x = _ /\ In c (players ?x) =>
      assert (E : connsPlayers x = (add_id c (connections st2), players st2))
  end.
  { repeat cp_step; reflexivity. }
  split.
  - rewrite <- Hadd. exact (f_equal fst E).
  - change (players ?x) with (snd (connsPlayers x)). rewrite E. exact Hp2.
Qed.

Lemma handleRemoteJoin_adds_client_witness :
  connections (handleRemoteJoin passive (roomWith false 1 [] [1; 2]) 3)
  = [1; 2; 3].
Proof.
  exact (proj1 (handleRemoteJoin_adds_client passive (roomWith false 1 [] [1; 2])
                  3 eq_refl)).
Defined.

Lemma handleLeave_connections s c :
  connections (snd (handleLeave s c)) = connections s.
Proof. unfold handleLeave. destruct (mem c (players s)); reflexivity. Qed.

Lemma handleLeave_keeps s c :
  connections (snd (handleLeave s c)) = connections s /\
  sent (snd (handleLeave s c)) = sent s /\
  emitted (snd (handleLeave s c)) = emitted s.
Proof. unfold handleLeave. destruct (mem c (players s)); auto. Qed.

(** [handleRemoteLeave] removes exactly the leaving client from the
    connection map, whether the room is destroyed or a new host is
    chosen. *)
Theorem handleRemoteLeave_connections L st leaving reason :
  connections (handleRemoteLeave L st leaving reason) =
  remove_id leaving (connections st).
Proof.
  unfold handleRemoteLeave.
  set (st1 := set_connections
                (set_waitingForHost st (remove_id leaving (waitingForHost st)))
                (remove_id leaving (connections st))).
  pose proof (handleLeave_connections st1 leaving) as Hl.
  destruct (handleLeave st1 leaving) as [playerLeft st2].
  simpl in Hl. change (connections st1) with (remove_id leaving (connections st)) in Hl.
  rewrite <- Hl. clearbody st1.
  match goal with |- connections ?x = _ =>
    assert (E : connsPlayers x = connsPlayers st2) end.
  { destruct (connections st2) as [|newHost rest]; repeat cp_step; reflexivity. }
  exact (f_equal fst E).
Qed.

(** When the last client leaves and no listener cancels the
    [RoomBeforeDestroyEvent], the room is destroyed: no packet is sent,
    the last two events are [RoomBeforeDestroy] and [RoomDestroy], and
    no connection is left. *)
Theorem handleRemoteLeave_last_client L st leaving reason
    (Hlast : remove_id leaving (connections st) = [])
    (Hnc : beforeDestroyCanceled L = false) :
  let st' := handleRemoteLeave L st leaving reason in
  state st' = Destroyed /\ sent st' = sent st /\
  emitted st' = emitted st ++ [EvRoomBeforeDestroy; EvRoomDestroy] /\
  connections st' = [].
Proof.
  cbv zeta. unfold handleRemoteLeave.
  set (st1 := set_connections
                (set_waitingForHost st (remove_id leaving (waitingForHost st)))
                (remove_id leaving (connections st))).
  pose proof (handleLeave_keeps st1 leaving) as [Hc [Hs He]].
  destruct (handleLeave st1 leaving) as [playerLeft st2].
  simpl in Hc, Hs, He.
  change (connections st1) with (remove_id leaving (connections st)) in Hc.
  change (sent st1) with (sent st) in Hs.
  change (emitted st1) with (emitted st) in He.
  rewrite Hlast in Hc. rewrite Hc.
  unfold destroy. rewrite Hnc. unfold broadcast, broadcastMessages.
  change (connections (emit st2 EvRoomBeforeDestroy)) with (connections st2).
  rewrite Hc. cbn. rewrite Hs, He, <- app_assoc.
  repeat split; assumption || reflexivity.
Qed.

Lemma handleRemoteLeave_last_client_witness :
  remove_id 1 (connections (roomWith false 1 [] [1])) = [] /\
  state (handleRemoteLeave passive (roomWith false 1 [] [1]) 1 ReasonError)
  = Destroyed.
Proof.
  split; [reflexivity|].
  exact (proj1 (handleRemoteLeave_last_client passive (roomWith false 1 [] [1])
                  1 ReasonError eq_refl eq_refl)).
Defined.

Lemma mem_remove_id c x w :
  mem c (remove_id x w) = negb (Z.eqb x c) && mem c w.
Proof.
  induction w as [|y w IH]; simpl.
  - destruct (Z.eqb x c); reflexivity.
  - unfold remove_id in *. simpl.
    destruct (Z.eqb x y) eqn:Exy; simpl.
    + apply Z.eqb_eq in Exy. subst y. rewrite IH, (Z.eqb_sym c x).
      destruct (Z.eqb x c); reflexivity.
    + unfold mem in *. simpl. rewrite IH.
      destruct (Z.eqb c y) eqn:Ecy; simpl; [|reflexivity].
      apply Z.eqb_eq in Ecy. subst y. rewrite Exy. reflexivity.
Qed.

Lemma mem_In c l : mem c l = true <-> In c l.
Proof.
  unfold mem. rewrite existsb_exists. split.
  - intros [y [Hy E]]. apply Z.eqb_eq in E. subst. exact Hy.
  - intro H. exists c. split; [exact H|apply Z.eqb_refl].
Qed.

Lemma filter_remove_id x l w :
  filter (fun v => negb (mem v l)) (remove_id x w) =
  filter (fun v => negb (mem v (x :: l))) w.
Proof.
  induction w as [|y w IH]; [reflexivity|].
  change (remove_id x (y :: w))
    with (if negb (Z.eqb x y) then y :: remove_id x w else remove_id x w).
  change (filter (fun v => negb (mem v (x :: l))) (y :: w))
    with (if negb (mem y (x :: l))
          then y :: filter (fun v => negb (mem v (x :: l))) w
          else filter (fun v => negb (mem v (x :: l))) w).
  rewrite <- IH.
  change (mem y (x :: l)) with (Z.eqb y x || mem y l). rewrite (Z.eqb_sym y x).
  destruct (Z.eqb x y); reflexivity.
Qed.

Lemma cfg_joinedHostFor s s' c :
  roomConfig s' = roomConfig s ->
  joinedHostFor s' c = joinedHostFor s c /\ code s' = code s /\
  connections s' = connections s.
Proof. unfold roomConfig, joinedHostFor. intro H. inversion H. auto. Qed.

Lemma joinOtherClients_fold st l s :
  NoDup l -> roomConfig s = roomConfig st ->
  let s' := fold_left
      (fun st' c =>
         if mem c (waitingForHost st') then
           let st'' := set_waitingForHost st' (remove_id c (waitingForHost st')) in
           sendPacket st'' c true
             [JoinedGameMessage (code st'') c (joinedHostFor st'' c)
                (remove_id c (connections st''))]
         else st') l s in
  roomConfig s' = roomConfig s /\
  waitingForHost s' = filter (fun w => negb (mem w l)) (waitingForHost s) /\
  exists fresh, sent s' = sent s ++ fresh /\
    map (fun cp => (fst cp, packetMessages (snd cp))) fresh =
    map (fun c => (c, [JoinedGameMessage (code st) c (joinedHostFor st c)
                         (remove_id c (connections st))]))
        (filter (fun c => mem c (waitingForHost s)) l).
Proof.
  cbv zeta. revert s. induction l as [|x l IH]; intros s Hnd Hcfg.
  - simpl. split; [reflexivity|]. split.
    + generalize (waitingForHost s) as w.
      induction w as [|a w IHw]; simpl; congruence.
    + exists []. rewrite app_nil_r. split; reflexivity.
  - apply NoDup_cons_iff in Hnd as [Hx Hnd]. cbn [fold_left].
    destruct (mem x (waitingForHost s)) eqn:Ew.
    + match goal with |- context [fold_left _ l (sendPacket ?a x true ?m)] =>
        destruct (sendPacket_sent a x true m) as [pk [Ep Hp]];
        assert (Ha : roomConfig a = roomConfig st) by exact Hcfg;
        destruct (cfg_joinedHostFor st a x Ha) as [Hj [Hcd Hcn]];
        set (s1 := sendPacket a x true m) in *
      end.
      assert (Hc1 : roomConfig s1 = roomConfig s)
        by (unfold s1; rewrite cfg_sendPacket; reflexivity).
      assert (Hw1 : waitingForHost s1 = remove_id x (waitingForHost s))
        by reflexivity.
      destruct (IH s1 Hnd (eq_trans Hc1 Hcfg)) as [Hc [Hw [fresh [Hs Hm]]]].
      split; [congruence|]. split.
      * rewrite Hw, Hw1. apply filter_remove_id.
      * exists ((x, pk) :: fresh). split.
        -- rewrite Hs, Ep, <- app_assoc. reflexivity.
        -- simpl. rewrite Hp, Hm, Hj, Hcd, Hcn, Ew. cbn [map].
           f_equal. f_equal. apply filter_ext_in. intros c Hc'.
           rewrite Hw1, mem_remove_id.
           destruct (Z.eqb x c) eqn:Exc; [|reflexivity].
           apply Z.eqb_eq in Exc. subst. contradiction.
    + destruct (IH s Hnd Hcfg) as [Hc [Hw [fresh [Hs Hm]]]].
      split; [exact Hc|]. split.
      * rewrite Hw. apply filter_ext_in. intros y Hy.
        unfold mem at 2. simpl. fold (mem y l).
        destruct (Z.eqb y x) eqn:Eyx; [|reflexivity].
        apply Z.eqb_eq in Eyx. subst. apply mem_In in Hy. congruence.
      * exists fresh. split; [exact Hs|]. cbn [filter]. rewrite Ew. exact Hm.
Qed.

(** [_joinOtherClients] empties [waitingForHost] and sends each waiting
    connection, in connection order, exactly one packet: a [JoinedGame]
    naming the host it should see (itself if it is an enabled acting
    host) and every other connection.  Connections not waiting get
    nothing, and the host, players and connections are unchanged. *)
Theorem joinOtherClients_spec st (Hnd : NoDup (connections st)) :
  let st' := joinOtherClients st in
  waitingForHost st' = [] /\ roomConfig st' = roomConfig st /\
  exists fresh, sent st' = sent st ++ fresh /\
    map (fun cp => (fst cp, packetMessages (snd cp))) fresh =
    map (fun c => (c, [JoinedGameMessage (code st) c (joinedHostFor st c)
                         (remove_id c (connections st))]))
        (filter (fun c => mem c (waitingForHost st)) (connections st)).
Proof.
  cbv zeta. unfold joinOtherClients.
  destruct (joinOtherClients_fold st (connections st) st Hnd eq_refl)
    as [Hc [_ Hf]].
  split; [reflexivity|]. split; [exact Hc|]. exact Hf.
Qed.

Lemma joinOtherClients_spec_witness :
  sent (joinOtherClients (set_waitingForHost (roomWith false 1 [] [1; 2; 3]) [3; 2]))
  = [(2, ReliablePacket 1 [JoinedGameMessage 42 2 1 [1; 3]]);
     (3, ReliablePacket 1 [JoinedGameMessage 42 3 1 [1; 2]])] /\
  waitingForHost (joinOtherClients
                    (set_waitingForHost (roomWith false 1 [] [1; 2; 3]) [3; 2]))
  = [].
Proof.
  split; [reflexivity|].
  refine (proj1 (joinOtherClients_spec
                   (set_waitingForHost (roomWith false 1 [] [1; 2; 3]) [3; 2]) _)).
  repeat constructor; simpl; intuition lia.
Defined.

Lemma cfg_set_state s v : roomConfig (set_state s v) = roomConfig s.
Proof. reflexivity. Qed.
Lemma cfg_joinOtherClients s : roomConfig (joinOtherClients s) = roomConfig s.
Proof.
  unfold joinOtherClients. change (roomConfig (set_waitingForHost ?x [])) with (roomConfig x).
  apply cfg_fold_left. intros s' x. destruct (mem x _); [|reflexivity].
  rewrite cfg_sendPacket. reflexivity.
Qed.
Lemma cfg_tellHosts L s : roomConfig (tellHosts L s) = roomConfig s.
Proof.
  unfold tellHosts. apply cfg_fold_left. intros s' x.
  destruct (_ && _); apply cfg_updateHostForClient.
Qed.

Ltac cfg_step :=
  first
    [ rewrite cfg_tellHosts | rewrite cfg_joinOtherClients | rewrite cfg_emit
    | rewrite cfg_set_state | rewrite cfg_updateHostForClient
    | match goal with
      | |- context [roomConfig (if ?b then _ else _)] => destruct b
      end ].

(** [setHost]: it throws in a server-as-host room and for a client with
    no connection, does nothing for client id 0, and otherwise only
    changes the host among the room's configuration (connections,
    players and acting hosts are kept). *)
Theorem setHost_results L st p :
  (serverAsHost st = true -> exists m, setHost L st p = Throw m) /\
  (serverAsHost st = false -> p = 0 -> setHost L st p = Ok st) /\
  (serverAsHost st = false -> p <> 0 -> mem p (connections st) = false ->
   exists m, setHost L st p = Throw m) /\
  (serverAsHost st = false -> p <> 0 -> mem p (connections st) = true ->
   exists st', setHost L st p = Ok st' /\
               roomConfig st' = roomConfig (set_hostId st p)).
Proof.
  unfold setHost. repeat split.
  - intro H. rewrite H. eexists. reflexivity.
  - intros H ->. rewrite H. reflexivity.
  - intros H Hp Hm. rewrite H. apply Z.eqb_neq in Hp. rewrite Hp, Hm.
    eexists. reflexivity.
  - intros H Hp Hm. rewrite H. apply Z.eqb_neq in Hp. rewrite Hp, Hm.
    eexists. split; [reflexivity|]. cbv zeta. repeat cfg_step; reflexivity.
Qed.

Lemma setHost_results_witness :
  (exists m, setHost passive (roomWith false 1 [] [1; 2]) 5 = Throw m) /\
  hostId (match setHost passive (roomWith false 1 [] [1; 2]) 2 with
          | Ok s => s | Throw _ => roomWith false 1 [] [1; 2] end) = 2.
Proof.
  split.
  - exact (proj1 (proj2 (proj2 (setHost_results passive (roomWith false 1 [] [1; 2]) 5)))
             eq_refl ltac:(discriminate) eq_refl).
  - destruct (proj2 (proj2 (proj2 (setHost_results passive (roomWith false 1 [] [1; 2]) 2)))
                eq_refl ltac:(discriminate) eq_refl) as [st' [E C]].
    rewrite E. unfold roomConfig in C. injection C. intros. assumption.
Defined.

Lemma cfg_enableSaaH L st b :
  roomConfig (enableSaaH L st b) =
  roomConfig (set_hostId
                (if b && negb (Z.eqb (hostId st) Server)
                 then set_actingHostIds (set_serverAsHost st true)
                        (add_id (hostId st) (actingHostIds st))
                 else set_serverAsHost st true) Server).
Proof.
  unfold enableSaaH. apply cfg_fold_left. intros s x.
  destruct (_ && _); apply cfg_updateHostForClient.
Qed.

(** Server-as-host round trip: in a room hosted by a connected client
    [h] with no acting host, [enableSaaH] (adding [h] as acting host)
    followed by [disableSaaH], whose host selection keeps [h], gives the
    room its configuration back: [h] is the host again, no acting host,
    server-as-host off. *)
Theorem saah_round_trip L st h
    (Hsaah : serverAsHost st = false) (Hh : hostId st = h)
    (Hserver : h <> Server) (Hnone : actingHostIds st = [])
    (Hconn : mem h (connections st) = true)
    (Hsel : onSelectHost L false false h = Some h) :
  roomConfig (disableSaaH L (enableSaaH L st true)) = roomConfig st.
Proof.
  pose proof (cfg_enableSaaH L st true) as E.
  rewrite Hh in E. apply Z.eqb_neq in Hserver. rewrite Hserver in E.
  cbn [andb negb] in E. rewrite Hnone in E.
  set (st1 := enableSaaH L st true) in *. clearbody st1.
  unfold roomConfig in E. cbn in E.
  injection E as Hcode Hs1 Hh1 Hen Hah Hc Hpl Hfin.
  unfold disableSaaH. rewrite Hah. unfold connections_get.
  rewrite Hc, Hconn, Hsel. cbv zeta.
  repeat cfg_step;
  unfold roomConfig; cbn; rewrite Hah; cbn; rewrite Z.eqb_refl; cbn;
  rewrite Hcode, Hen, Hc, Hpl, Hfin, Hsaah, Hh, Hnone; reflexivity.
Qed.

Lemma saah_round_trip_witness :
  hostId (disableSaaH passive (enableSaaH passive (roomWith false 1 [] [1; 2]) true))
  = 1.
Proof.
  pose proof (saah_round_trip passive (roomWith false 1 [] [1; 2]) 1 eq_refl eq_refl
                ltac:(unfold Server; lia) eq_refl eq_refl eq_refl) as E.
  exact (f_equal (fun t => snd (fst (fst (fst (fst (fst t)))))) E).
Defined.

(** [disableSaaH] when the first acting host has no connection: SaaH is
    switched off but no host is selected and nobody is told anything;
    the room keeps its previous host id (the server's, for a room that
    was in server-as-host mode). *)
Theorem disableSaaH_disconnected_acting_host L st h rest
    (Hah : actingHostIds st = h :: rest)
    (Hnc : mem h (connections st) = false) :
  disableSaaH L st = set_serverAsHost st false.
Proof. unfold disableSaaH, connections_get. rewrite Hah, Hnc. reflexivity. Qed.

Lemma disableSaaH_disconnected_acting_host_witness :
  let st := set_actingHostIds (roomWith true Server [] [1; 2]) [9; 1] in
  serverAsHost (disableSaaH passive st) = false /\
  hostId (disableSaaH passive st) = Server /\
  sent (disableSaaH passive st) = [].
Proof.
  cbv zeta.
  rewrite (disableSaaH_disconnected_acting_host passive
             (set_actingHostIds (roomWith true Server [] [1; 2]) [9; 1]) 9 [1]
             eq_refl eq_refl).
  repeat split; reflexivity.
Defined.

Lemma remove_id_add p l : mem p l = false -> remove_id p (l ++ [p]) = l.
Proof.
  intro Hnew. unfold remove_id. rewrite filter_app. cbn. rewrite Z.eqb_refl.
  cbn. rewrite app_nil_r.
  induction l as [|y ys IH]; [reflexivity|].
  unfold mem in Hnew. cbn in Hnew |- *. apply orb_false_iff in Hnew as [H1 H2].
  rewrite H1. cbn. f_equal. apply IH. exact H2.
Qed.

(** Acting-host round trip: adding a client that is not an acting host
    and removing it again gives the room its configuration back (the
    host updates sent in between apart). *)
Theorem acting_host_add_remove L st p b b'
    (Hnew : mem p (actingHostIds st) = false) :
  roomConfig (removeActingHost L (addActingHost L st p b) p b') = roomConfig st.
Proof.
  assert (Hadd : roomConfig (addActingHost L st p b) =
                 roomConfig (set_actingHostIds st (add_id p (actingHostIds st)))).
  { unfold addActingHost.
    destruct (actingHostWaitingFor _); [destruct (_ || _)|];
      rewrite ?cfg_updateHostForClient; reflexivity. }
  set (s1 := addActingHost L st p b) in *. clearbody s1.
  assert (Hrem : roomConfig (removeActingHost L s1 p b') =
                 roomConfig (set_actingHostIds s1 (remove_id p (actingHostIds s1)))).
  { unfold removeActingHost. destruct (_ || _);
      rewrite ?cfg_updateHostForClient; reflexivity. }
  rewrite Hrem. unfold roomConfig in *. cbn in *.
  injection Hadd as Hc Hs Hh He Ha Hco Hp Hf.
  rewrite Hc, Hs, Hh, He, Ha, Hco, Hp, Hf. unfold add_id. rewrite Hnew.
  rewrite remove_id_add by exact Hnew. reflexivity.
Qed.

Lemma acting_host_add_remove_witness :
  actingHostIds (removeActingHost passive
                   (addActingHost passive (roomWith false 1 [2] [1; 2; 3]) 3 true)
                   3 true) = [2].
Proof.
  pose proof (acting_host_add_remove passive (roomWith false 1 [2] [1; 2; 3]) 3 true
                true eq_refl) as E.
  exact (f_equal (fun t => snd (fst (fst (fst t)))) E).
Defined.

(** [disableActingHosts] throws when acting hosts are already disabled;
    otherwise it keeps the list of acting hosts, and a following
    [enableActingHosts] succeeds and gives the room its configuration
    back. *)
Theorem acting_hosts_disable_enable L st :
  (actingHostsEnabled st = false ->
   exists m, disableActingHosts L st = Throw m) /\
  (actingHostsEnabled st = true ->
   exists st1, disableActingHosts L st = Ok st1 /\
     actingHostsEnabled st1 = false /\ actingHostIds st1 = actingHostIds st /\
     exists st2, enableActingHosts L st1 = Ok st2 /\
                 roomConfig st2 = roomConfig st).
Proof.
  unfold disableActingHosts. split.
  - intro H. rewrite H. eexists. reflexivity.
  - intro H. rewrite H. cbn [negb].
    match goal with |- exists st1, Ok (set_actingHostsEnabled ?x false) = Ok st1 /\ _ =>
      assert (Hx : roomConfig x = roomConfig st);
      [|set (x0 := x) in *; clearbody x0] end.
    { apply cfg_fold_left. intros s a.
      destruct (mem a _); [destruct (serverAsHost s)|];
        rewrite ?cfg_updateHostForClient; reflexivity. }
    eexists. split; [reflexivity|].
    unfold roomConfig in Hx. injection Hx as Hc Hs Hh He Ha Hco Hp Hf.
    split; [reflexivity|]. split; [exact Ha|].
    unfold enableActingHosts.
    change (actingHostsEnabled (set_actingHostsEnabled x0 false)) with false.
    cbv iota.
    eexists. split; [reflexivity|].
    match goal with |- roomConfig (set_actingHostsEnabled ?y true) = _ =>
      assert (Hy : roomConfig y = roomConfig (set_actingHostsEnabled x0 false));
      [|set (y0 := y) in *; clearbody y0] end.
    { destruct (actingHostWaitingFor _); [|reflexivity].
      apply cfg_fold_left. intros s a.
      destruct (mem a _); rewrite ?cfg_updateHostForClient; reflexivity. }
    change (roomConfig (set_actingHostsEnabled x0 false)) with
      (code x0, serverAsHost x0, hostId x0, false, actingHostIds x0,
       connections x0, players x0, finishedActingHostTransactionRoutine x0) in Hy.
    change (roomConfig (set_actingHostsEnabled y0 true)) with
      (code y0, serverAsHost y0, hostId y0, true, actingHostIds y0,
       connections y0, players y0, finishedActingHostTransactionRoutine y0).
    unfold roomConfig in Hy.
    injection Hy as Hc' Hs' Hh' He' Ha' Hco' Hp' Hf'.
    unfold roomConfig.
    rewrite Hc', Hs', Hh', Ha', Hco', Hp', Hf', Hc, Hs, Hh, Ha, Hco, Hp, Hf, H.
    reflexivity.
Qed.

Lemma acting_hosts_disable_enable_witness :
  exists st1, disableActingHosts passive (roomWith false 1 [2] [1; 2]) = Ok st1 /\
    actingHostIds st1 = [2].
Proof.
  destruct (proj2 (acting_hosts_disable_enable passive (roomWith false 1 [2] [1; 2]))
              eq_refl) as [st1 [E [_ [Ha _]]]].
  exists st1. split; [exact E|exact Ha].
Defined.

Lemma hostConfig_of_cfg s t :
  roomConfig s = roomConfig t -> hostConfig s = hostConfig t.
Proof.
  unfold roomConfig, hostConfig. intro E.
  injection E as Hcode Hsaah Hhost Hen Hah _ _ _.
  rewrite Hcode, Hsaah, Hhost, Hen, Hah. reflexivity.
Qed.

(** [handleEnd]: when a listener cancels the [RoomGameEndEvent], the
    room is left [Started] (whatever its state was) with its waiting
    list restored and nothing sent; otherwise it is [Ended], nobody is
    waiting for the host, and the code, host and acting hosts are
    unchanged. *)
Theorem handleEnd_outcome L st m :
  handleEnd L st true m = set_state st Started /\
  (let st' := handleEnd L st false m in
   state st' = Ended /\ waitingForHost st' = [] /\
   hostConfig st' = hostConfig st).
Proof.
  unfold handleEnd. split; [destruct st; reflexivity|].
  cbv zeta. split; [|split].
  - unfold broadcast, broadcastMessages. cbn.
    destruct (connections st) as [|c [|c' l]]; [reflexivity|
      unfold broadcastTo; cbn; destruct (onClientBroadcast L c [] [m]) as [[] [|g gs]];
      reflexivity|].
    generalize (c :: c' :: l). intro ls.
    assert (Hf : forall l0 s, state s = Ended ->
              state (fold_left (fun st' connection =>
                 if mem connection [] then st'
                 else broadcastTo L st' connection [] [m] false true) l0 s) = Ended).
    { induction l0 as [|x l0 IH]; intros s Hs; [exact Hs|]. cbn [fold_left].
      apply IH. cbn. unfold broadcastTo.
      destruct (onClientBroadcast L x [] [m]) as [[] [|g gs]]; exact Hs. }
    apply Hf. reflexivity.
  - unfold broadcast, broadcastMessages. cbn.
    destruct (connections st) as [|c [|c' l]]; [reflexivity|
      unfold broadcastTo; cbn; destruct (onClientBroadcast L c [] [m]) as [[] [|g gs]];
      reflexivity|].
    generalize (c :: c' :: l). intro ls.
    assert (Hf : forall l0 s, waitingForHost s = [] ->
              waitingForHost (fold_left (fun st' connection =>
                 if mem connection [] then st'
                 else broadcastTo L st' connection [] [m] false true) l0 s) = []).
    { induction l0 as [|x l0 IH]; intros s Hs; [exact Hs|]. cbn [fold_left].
      apply IH. cbn. unfold broadcastTo.
      destruct (onClientBroadcast L x [] [m]) as [[] [|g gs]]; exact Hs. }
    apply Hf. reflexivity.
  - apply hostConfig_of_cfg.
    unfold broadcast. rewrite cfg_broadcastMessages. reflexivity.
Qed.

End BaseRoomExtra.
